(** * Synapse Big Data Pool resource: expand/flatten converters and CRUD operations

    A shallow embedding of
    [azurerm/internal/services/synapse/synapse_big_data_pool_resource.go].

    Layout of the development:
    - Go values held in [interface{}] and the type assertions on them;
    - the SDK structs the converters build and read;
    - the six expand/flatten converters (lines 289-401);
    - the resource schema (lines 40-158) and the [schema.ResourceData] store;
    - the remote client, as world-passing functions with a log of requests;
    - Create/Update, Read and Delete (lines 162-287);
    - a small concrete provider to run the operations on;
    - the properties.

    Conventions.  A Go pointer is an [option]; an [int32] is a [Z] with the
    conversion [int32] written out; a panic is an outcome of its own
    ([Panic]); a Go [error] result is an [option error], [None] for nil.
    An operation is a function from the state (resource data, remote world,
    request log) to a result and a new state.

    Left out: contexts and timeouts, the log line of Read, the importer, and
    the type assertions on [meta], which holds the provider's client. *)

From stdpp Require Import gmap strings list.
From Stdlib Require Import ZArith Lia.

#[local] Set Warnings "-register-all".
#[local] Open Scope Z_scope.

(** ** Go values *)

(** What an [interface{}] of this file can hold.  The dynamic type matters:
    [x.(int)] does not accept an [int32]. *)
Inductive value : Type :=
| VNil                              (* the nil interface *)
| VInt (n : Z)                      (* int *)
| VInt32 (n : Z)                    (* int32 *)
| VString (s : string)              (* string *)
| VList (l : list value)            (* []interface{} *)
| VMap (m : gmap string value).     (* map[string]interface{} *)

Inductive panic : Type :=
| InterfaceConversion               (* a failed type assertion x.(T) *)
| NilPointerDereference.

(** A Go expression either yields a value or panics. *)
Inductive result (A : Type) : Type :=
| Value (a : A)
| Panic (p : panic).
Arguments Value {A} a.
Arguments Panic {A} p.

#[export] Instance result_ret : MRet result := fun A a => Value a.
#[export] Instance result_bind : MBind result := fun A B f r =>
  match r with
  | Value a => f a
  | Panic p => Panic p
  end.

(** [int32(n)] for an [int] n: the low 32 bits, read as a signed number. *)
Definition int32 (n : Z) : Z := (n + 2 ^ 31) mod 2 ^ 32 - 2 ^ 31.

Definition isInt32 (n : Z) : Prop := - 2 ^ 31 <= n < 2 ^ 31.

(** Type assertions [v.(T)]. *)
Definition assertMap (v : value) : result (gmap string value) :=
  match v with
  | VMap m => Value m
  | _ => Panic InterfaceConversion
  end.

Definition assertInt (v : value) : result Z :=
  match v with
  | VInt n => Value n
  | _ => Panic InterfaceConversion
  end.

Definition assertString (v : value) : result string :=
  match v with
  | VString s => Value s
  | _ => Panic InterfaceConversion
  end.

Definition assertList (v : value) : result (list value) :=
  match v with
  | VList l => Value l
  | _ => Panic InterfaceConversion
  end.

(** [m[k]] on a Go map: the zero value (a nil interface) for a missing key. *)
Definition index (m : gmap string value) (k : string) : value :=
  default VNil (m !! k).

(** ** SDK structs (package synapse); pointers are options *)

Module AutoPauseProperties.
Record t : Type := mk {
  DelayInMinutes : option Z;        (* *int32 *)
  Enabled : option bool;            (* *bool *)
}.
End AutoPauseProperties.

Module AutoScaleProperties.
Record t : Type := mk {
  MinNodeCount : option Z;          (* *int32 *)
  Enabled : option bool;            (* *bool *)
  MaxNodeCount : option Z;          (* *int32 *)
}.
End AutoScaleProperties.

Module LibraryRequirements.
Record t : Type := mk {
  Content : option string;          (* *string *)
  Filename : option string;         (* *string *)
}.
End LibraryRequirements.

(** The fields of [synapse.BigDataPoolResourceProperties] this file touches. *)
Record BigDataPoolResourceProperties : Type := {
  AutoPause : option AutoPauseProperties.t;
  AutoScale : option AutoScaleProperties.t;
  DefaultSparkLogFolder : option string;
  LibraryRequirements : option LibraryRequirements.t;
  NodeCount : option Z;             (* *int32 *)
  NodeSize : string;
  NodeSizeFamily : string;
  SparkEventsFolder : option string;
  SparkVersion : option string;
}.

(** ** Expand converters (lines 289-325) *)

Definition expandArmBigDataPoolAutoPauseProperties (input : list value)
  : result (option AutoPauseProperties.t) :=
  match input with
  | [] =>
      Value (Some {| AutoPauseProperties.DelayInMinutes := None;
                     AutoPauseProperties.Enabled := Some false |})
  | input0 :: _ =>
      v ← assertMap input0;
      delay ← assertInt (index v "delay_in_minutes");
      Value (Some {| AutoPauseProperties.DelayInMinutes := Some (int32 delay);
                     AutoPauseProperties.Enabled := Some true |})
  end.

Definition expandArmBigDataPoolAutoScaleProperties (input : list value)
  : result (option AutoScaleProperties.t) :=
  match input with
  | [] | VNil :: _ =>
      Value (Some {| AutoScaleProperties.MinNodeCount := None;
                     AutoScaleProperties.Enabled := Some false;
                     AutoScaleProperties.MaxNodeCount := None |})
  | input0 :: _ =>
      v ← assertMap input0;
      minNodeCount ← assertInt (index v "min_node_count");
      maxNodeCount ← assertInt (index v "max_node_count");
      Value (Some {| AutoScaleProperties.MinNodeCount := Some (int32 minNodeCount);
                     AutoScaleProperties.Enabled := Some true;
                     AutoScaleProperties.MaxNodeCount := Some (int32 maxNodeCount) |})
  end.

Definition expandArmBigDataPoolLibraryRequirements (input : list value)
  : result (option LibraryRequirements.t) :=
  match input with
  | [] => Value None
  | input0 :: _ =>
      v ← assertMap input0;
      content ← assertString (index v "content");
      filename ← assertString (index v "filename");
      Value (Some {| LibraryRequirements.Content := Some content;
                     LibraryRequirements.Filename := Some filename |})
  end.

(** ** Flatten converters (lines 327-401) *)

Definition flattenArmBigDataPoolAutoPauseProperties
  (input : option AutoPauseProperties.t) : list value :=
  match input with
  | None => []
  | Some input =>
      let delayInMinutes := default 0 (AutoPauseProperties.DelayInMinutes input) in
      let enabled := default false (AutoPauseProperties.Enabled input) in
      if negb enabled then []
      else [VMap (<["delay_in_minutes" := VInt32 delayInMinutes]> ∅)]
  end.

Definition flattenArmBigDataPoolAutoScaleProperties
  (input : option AutoScaleProperties.t) : list value :=
  match input with
  | None => []
  | Some input =>
      let enabled := default false (AutoScaleProperties.Enabled input) in
      if negb enabled then []
      else
        let maxNodeCount := default 0 (AutoScaleProperties.MaxNodeCount input) in
        let minNodeCount := default 0 (AutoScaleProperties.MinNodeCount input) in
        [VMap (<["max_node_count" := VInt32 maxNodeCount]>
                 (<["min_node_count" := VInt32 minNodeCount]> ∅))]
  end.

Definition flattenArmBigDataPoolLibraryRequirements
  (input : option LibraryRequirements.t) : list value :=
  match input with
  | None => []
  | Some input =>
      let content := default "" (LibraryRequirements.Content input) in
      let filename := default "" (LibraryRequirements.Filename input) in
      [VMap (<["content" := VString content]>
               (<["filename" := VString filename]> ∅))]
  end.

(** ** Identifiers (package parse) and the workspace the pool lives in *)

Module SynapseWorkspaceId.
Record t : Type := mk {
  ResourceGroup : string;
  Name : string;
}.
End SynapseWorkspaceId.

Module SynapseBigDataPoolId.
Record t : Type := mk {
  Workspace : SynapseWorkspaceId.t;
  Name : string;
}.
End SynapseBigDataPoolId.

Module Workspace.
Record t : Type := mk {
  Location : option string;
}.
End Workspace.

(** ** The resource schema (lines 40-158) *)

Inductive ValueType : Type := TypeString | TypeInt | TypeList | TypeMap.

(** A field of a nested block ([Elem: &schema.Resource{...}]). *)
Record ElemSchema : Type := {
  eType : ValueType;
  eRequired : bool;
  eValidateFunc : value → bool;
}.

Record Schema : Type := {
  Type_ : ValueType;
  Required : bool;
  Optional : bool;
  ForceNew : bool;
  Default : option value;
  MaxItems : option nat;
  ExactlyOneOf : list string;
  ValidateFunc : value → bool;
  Elem : list (string * ElemSchema);
}.

(** [validation.IntBetween] and [validation.StringInSlice] (case sensitive). *)
Definition IntBetween (lo hi : Z) (v : value) : bool :=
  match v with
  | VInt n => (lo <=? n) && (n <=? hi)
  | _ => false
  end.

Definition StringInSlice (valid : list string) (v : value) : bool :=
  match v with
  | VString s => bool_decide (s ∈ valid)
  | _ => false
  end.

Definition noValidation (v : value) : bool := true.

(** Constants of the SDK's [NodeSize] and [NodeSizeFamily] enumerations. *)
Definition NodeSizeFamilyMemoryOptimized : string := "MemoryOptimized".
Definition NodeSizeSmall : string := "Small".
Definition NodeSizeMedium : string := "Medium".
Definition NodeSizeLarge : string := "Large".

Definition zeroValue (ty : ValueType) : value :=
  match ty with
  | TypeString => VString ""
  | TypeInt => VInt 0
  | TypeList => VList []
  | TypeMap => VMap ∅
  end.

Definition hasType (ty : ValueType) (v : value) : bool :=
  match ty, v with
  | TypeString, VString _ | TypeInt, VInt _
  | TypeList, VList _ | TypeMap, VMap _ => true
  | _, _ => false
  end.

(** ** [schema.ResourceData] *)

Record ResourceData : Type := {
  Id : string;
  IsNewResource : bool;
  fields : gmap string value;
}.

Definition SetId (id : string) (d : ResourceData) : ResourceData :=
  {| Id := id; IsNewResource := IsNewResource d; fields := fields d |}.

(** ** Collaborators

    Code outside this file is taken as given: the [parse], [validate],
    [utils] and [tags] helpers of the provider and the plugin SDK's error
    for a refused write. *)

Class Helpers : Type := {
  http_Response : Type;
  (** [autorest.Response] embeds a [*http.Response]. *)
  ResponseWasNotFound : option http_Response → bool;
  (** Error values made by collaborators. *)
  extError : Type;
  parse_SynapseWorkspaceID : string → SynapseWorkspaceId.t + extError;
  parse_SynapseBigDataPoolID : string → SynapseBigDataPoolId.t + extError;
  SynapseWorkspaceId_String : SynapseWorkspaceId.t → string;
  validate_SynapseBigDataPoolName : value → bool;
  validate_SynapseWorkspaceID : value → bool;
  tags_Expand : gmap string value → gmap string (option string);
  tags_FlattenAndSet :
    ResourceData → gmap string (option string) → ResourceData * option extError;
  setError : string → value → extError;
}.

Section Types.
Context `{Helpers}.

Inductive error : Type :=
| External (e : extError)
| Errorf (format : string) (args : list string) (cause : option error)
| ImportAsExistsError (resourceName id : string).

(** The fields of [synapse.BigDataPoolResourceInfo] this file touches;
    [Properties] is the embedded [*BigDataPoolResourceProperties]. *)
Record BigDataPoolResourceInfo : Type := {
  Response : option http_Response;
  Properties : option BigDataPoolResourceProperties;
  Tags : gmap string (option string);
  Location : option string;
  ID : option string;
}.

End Types.

(** The SDK clients, acting on a remote [World]. *)
Class Remote `{Helpers} : Type := {
  World : Type;
  Future : Type;
  api_BigDataPoolGet :
    string → string → string → World →
    (BigDataPoolResourceInfo * option extError) * World;
  api_WorkspaceGet :
    string → string → World → (Workspace.t * option extError) * World;
  api_BigDataPoolCreateOrUpdate :
    string → string → string → BigDataPoolResourceInfo → World →
    (Future * option extError) * World;
  api_BigDataPoolDelete :
    string → string → string → World → (Future * option extError) * World;
  api_WaitForCompletionRef : Future → World → option extError * World;
}.

(** ** The provider *)

Section Provider.
Context `{Remote}.

(** *** Schema *)

Definition bigDataPoolSchema : list (string * Schema) :=
  [ ("name",
     {| Type_ := TypeString; Required := true; Optional := false; ForceNew := true;
        Default := None; MaxItems := None; ExactlyOneOf := [];
        ValidateFunc := validate_SynapseBigDataPoolName; Elem := [] |});
    ("synapse_workspace_id",
     {| Type_ := TypeString; Required := true; Optional := false; ForceNew := true;
        Default := None; MaxItems := None; ExactlyOneOf := [];
        ValidateFunc := validate_SynapseWorkspaceID; Elem := [] |});
    ("node_size_family",
     {| Type_ := TypeString; Required := true; Optional := false; ForceNew := false;
        Default := None; MaxItems := None; ExactlyOneOf := [];
        ValidateFunc := StringInSlice [NodeSizeFamilyMemoryOptimized]; Elem := [] |});
    ("node_size",
     {| Type_ := TypeString; Required := true; Optional := false; ForceNew := false;
        Default := None; MaxItems := None; ExactlyOneOf := [];
        ValidateFunc := StringInSlice [NodeSizeSmall; NodeSizeMedium; NodeSizeLarge];
        Elem := [] |});
    ("node_count",
     {| Type_ := TypeInt; Required := false; Optional := true; ForceNew := false;
        Default := None; MaxItems := None;
        ExactlyOneOf := ["node_count"; "auto_scale"];
        ValidateFunc := IntBetween 3 200; Elem := [] |});
    ("auto_scale",
     {| Type_ := TypeList; Required := false; Optional := true; ForceNew := false;
        Default := None; MaxItems := Some 1%nat;
        ExactlyOneOf := ["node_count"; "auto_scale"];
        ValidateFunc := noValidation;
        Elem :=
          [ ("min_node_count",
             {| eType := TypeInt; eRequired := true;
                eValidateFunc := IntBetween 3 200 |});
            ("max_node_count",
             {| eType := TypeInt; eRequired := true;
                eValidateFunc := IntBetween 3 200 |}) ] |});
    ("auto_pause",
     {| Type_ := TypeList; Required := false; Optional := true; ForceNew := false;
        Default := None; MaxItems := Some 1%nat; ExactlyOneOf := [];
        ValidateFunc := noValidation;
        Elem :=
          [ ("delay_in_minutes",
             {| eType := TypeInt; eRequired := true;
                eValidateFunc := IntBetween 5 10080 |}) ] |});
    ("spark_events_folder",
     {| Type_ := TypeString; Required := false; Optional := true; ForceNew := false;
        Default := Some (VString "/events"); MaxItems := None; ExactlyOneOf := [];
        ValidateFunc := noValidation; Elem := [] |});
    ("spark_log_folder",
     {| Type_ := TypeString; Required := false; Optional := true; ForceNew := false;
        Default := Some (VString "/logs"); MaxItems := None; ExactlyOneOf := [];
        ValidateFunc := noValidation; Elem := [] |});
    ("library_requirement",
     {| Type_ := TypeList; Required := false; Optional := true; ForceNew := false;
        Default := None; MaxItems := Some 1%nat; ExactlyOneOf := [];
        ValidateFunc := noValidation;
        Elem :=
          [ ("content",
             {| eType := TypeString; eRequired := true;
                eValidateFunc := noValidation |});
            ("filename",
             {| eType := TypeString; eRequired := true;
                eValidateFunc := noValidation |}) ] |});
    ("spark_version",
     {| Type_ := TypeString; Required := false; Optional := true; ForceNew := false;
        Default := Some (VString "2.4"); MaxItems := None; ExactlyOneOf := [];
        ValidateFunc := StringInSlice ["2.4"]; Elem := [] |});
    ("tags",
     {| Type_ := TypeMap; Required := false; Optional := true; ForceNew := false;
        Default := None; MaxItems := None; ExactlyOneOf := [];
        ValidateFunc := noValidation; Elem := [] |}) ].

Definition lookupSchema (key : string) : option Schema :=
  (list_to_map bigDataPoolSchema : gmap string Schema) !! key.

(** *** What the plugin SDK accepts as a configuration *)

Definition validElemField (m : gmap string value) (f : string * ElemSchema) : bool :=
  match m !! f.1 with
  | Some v => hasType (eType f.2) v && eValidateFunc f.2 v
  | None => negb (eRequired f.2)
  end.

Definition validElem (elem : list (string * ElemSchema)) (v : value) : bool :=
  match v with
  | VMap m => forallb (validElemField m) elem
  | _ => false
  end.

Definition withinMaxItems (limit : option nat) (l : list value) : bool :=
  match limit with
  | Some n => bool_decide (length l ≤ n)%nat
  | None => true
  end.

Definition validField (cfg : gmap string value) (f : string * Schema) : bool :=
  match cfg !! f.1 with
  | Some v =>
      hasType (Type_ f.2) v && ValidateFunc f.2 v &&
      match v with
      | VList l => withinMaxItems (MaxItems f.2) l && forallb (validElem (Elem f.2)) l
      | _ => true
      end
  | None => negb (Required f.2)
  end.

(** A key counts as configured when it is present and, for a block list,
    when the list has a block. *)
Definition isConfigured (cfg : gmap string value) (key : string) : bool :=
  match cfg !! key with
  | Some (VList []) | None => false
  | Some _ => true
  end.

Definition exactlyOne (cfg : gmap string value) (f : string * Schema) : bool :=
  match ExactlyOneOf f.2 with
  | [] => true
  | keys => bool_decide (length (filter (λ k, isConfigured cfg k = true) keys) = 1%nat)
  end.

Definition accepted (cfg : gmap string value) : bool :=
  forallb (validField cfg) bigDataPoolSchema &&
  forallb (exactlyOne cfg) bigDataPoolSchema.

(** *** Reading and writing fields of the resource data *)

(** [d.Get(key)]: the stored value, else the schema default, else the zero
    value of the field's type. *)
Definition Get (d : ResourceData) (key : string) : value :=
  match fields d !! key with
  | Some v => v
  | None =>
      match lookupSchema key with
      | Some sch => default (zeroValue (Type_ sch)) (Default sch)
      | None => VNil
      end
  end.

(** The typed write behind [d.Set]: an [int32] is stored as the schema's
    [int], nil as the zero value; a value of another type is refused. *)
Definition writePrimitive (ty : ValueType) (v : value) : option value :=
  match ty, v with
  | TypeInt, VInt n | TypeInt, VInt32 n => Some (VInt n)
  | TypeString, VString s => Some (VString s)
  | (TypeInt | TypeString), VNil => Some (zeroValue ty)
  | _, _ => None
  end.

Definition writeElem (elem : list (string * ElemSchema)) (v : value) : option value :=
  match v with
  | VMap m =>
      fs ← mapM (λ f : string * ElemSchema,
                   (λ x, (f.1, x)) <$> writePrimitive (eType f.2) (index m f.1)) elem;
      Some (VMap (list_to_map fs))
  | _ => None
  end.

Definition writeField (sch : Schema) (v : value) : option value :=
  match Type_ sch, v with
  | TypeList, VList l => VList <$> mapM (writeElem (Elem sch)) l
  | TypeMap, VMap m => Some (VMap m)
  | (TypeList | TypeMap) as ty, VNil => Some (zeroValue ty)
  | (TypeInt | TypeString) as ty, _ => writePrimitive ty v
  | _, _ => None
  end.

Definition Set_ (key : string) (v : value) (d : ResourceData)
  : ResourceData * option error :=
  match lookupSchema key ≫= (λ sch, writeField sch v) with
  | Some v' =>
      ({| Id := Id d; IsNewResource := IsNewResource d;
          fields := <[key := v']> (fields d) |}, None)
  | None => (d, Some (External (setError key v)))
  end.

(** A pointer handed to [d.Set] is dereferenced; a nil pointer writes nil. *)
Definition ptrInt32 (p : option Z) : value := from_option VInt32 VNil p.
Definition ptrString (p : option string) : value := from_option VString VNil p.

(** *** The remote side *)

(** The requests an operation has sent, oldest first. *)
Inductive Call : Type :=
| BigDataPoolGet (resourceGroup workspaceName name : string)
| WorkspaceGet (resourceGroup workspaceName : string)
| BigDataPoolCreateOrUpdate (resourceGroup workspaceName name : string)
    (info : BigDataPoolResourceInfo)
| BigDataPoolDelete (resourceGroup workspaceName name : string)
| WaitForCompletionRef (future : Future).

Record State : Type := {
  data : ResourceData;
  world : World;
  calls : list Call;
}.

Definition start (d : ResourceData) (w : World) : State :=
  {| data := d; world := w; calls := [] |}.

(** An operation threads the state and may panic. *)
Definition M (A : Type) : Type := State → result (A * State).

#[local] Instance M_ret : MRet M := λ A a s, Value (a, s).
#[local] Instance M_bind : MBind M := λ A B f c s,
  match c s with
  | Value (a, s') => f a s'
  | Panic p => Panic p
  end.

Definition liftResult {A : Type} (r : result A) : M A := λ s,
  match r with
  | Value a => Value (a, s)
  | Panic p => Panic p
  end.

Definition deref {A : Type} (p : option A) : result A :=
  match p with
  | Some a => Value a
  | None => Panic NilPointerDereference
  end.

Definition request {A : Type} (c : Call) (f : World → A * World) : M A := λ s,
  let '(a, w) := f (world s) in
  Value (a, {| data := data s; world := w; calls := calls s ++ [c] |}).

Definition client_Get (resourceGroup workspaceName name : string)
  : M (BigDataPoolResourceInfo * option extError) :=
  request (BigDataPoolGet resourceGroup workspaceName name)
          (api_BigDataPoolGet resourceGroup workspaceName name).

Definition workspaceClient_Get (resourceGroup workspaceName : string)
  : M (Workspace.t * option extError) :=
  request (WorkspaceGet resourceGroup workspaceName)
          (api_WorkspaceGet resourceGroup workspaceName).

Definition client_CreateOrUpdate (resourceGroup workspaceName name : string)
  (info : BigDataPoolResourceInfo) : M (Future * option extError) :=
  request (BigDataPoolCreateOrUpdate resourceGroup workspaceName name info)
          (api_BigDataPoolCreateOrUpdate resourceGroup workspaceName name info).

Definition client_Delete (resourceGroup workspaceName name : string)
  : M (Future * option extError) :=
  request (BigDataPoolDelete resourceGroup workspaceName name)
          (api_BigDataPoolDelete resourceGroup workspaceName name).

Definition future_WaitForCompletionRef (future : Future) : M (option extError) :=
  request (WaitForCompletionRef future) (api_WaitForCompletionRef future).

(** *** [d.Get], [d.Set], [d.Id], [d.SetId], [d.IsNewResource] as operations *)

Definition onData {A : Type} (f : ResourceData → A * ResourceData) : M A := λ s,
  let '(a, d) := f (data s) in
  Value (a, {| data := d; world := world s; calls := calls s |}).

Definition d_Data : M ResourceData := onData (λ d, (d, d)).
Definition d_Get (key : string) : M value := onData (λ d, (Get d key, d)).
Definition d_Set (key : string) (v : value) : M (option error) :=
  onData (λ d, let '(d', err) := Set_ key v d in (err, d')).
Definition d_Id : M string := onData (λ d, (Id d, d)).
Definition d_SetId (id : string) : M unit := onData (λ d, (tt, SetId id d)).
Definition d_IsNewResource : M bool := onData (λ d, (IsNewResource d, d)).

Definition d_GetString (key : string) : M string :=
  v ← d_Get key; liftResult (assertString v).

(** *** Read (lines 229-266); the log line is not modelled *)

Definition setProperties (props : BigDataPoolResourceProperties) : M (option error) :=
  err ← d_Set "auto_pause" (VList (flattenArmBigDataPoolAutoPauseProperties (AutoPause props)));
  match err with
  | Some err => mret (Some (Errorf "setting `auto_pause`: %+v" [] (Some err)))
  | None =>
  err ← d_Set "auto_scale" (VList (flattenArmBigDataPoolAutoScaleProperties (AutoScale props)));
  match err with
  | Some err => mret (Some (Errorf "setting `auto_scale`: %+v" [] (Some err)))
  | None =>
  err ← d_Set "library_requirement"
          (VList (flattenArmBigDataPoolLibraryRequirements (LibraryRequirements props)));
  match err with
  | Some err => mret (Some (Errorf "setting `library_requirement`: %+v" [] (Some err)))
  | None =>
  _ ← d_Set "node_count" (ptrInt32 (NodeCount props));
  _ ← d_Set "node_size" (VString (NodeSize props));
  _ ← d_Set "node_size_family" (VString (NodeSizeFamily props));
  _ ← d_Set "spark_version" (ptrString (SparkVersion props));
  mret None
  end end end.

Definition resourceArmSynapseBigDataPoolRead : M (option error) :=
  rawId ← d_Id;
  match parse_SynapseBigDataPoolID rawId with
  | inr err => mret (Some (External err))
  | inl id =>
  let workspace := SynapseBigDataPoolId.Workspace id in
  let resourceGroup := SynapseWorkspaceId.ResourceGroup workspace in
  let workspaceName := SynapseWorkspaceId.Name workspace in
  let name := SynapseBigDataPoolId.Name id in
  '(resp, err) ← client_Get resourceGroup workspaceName name;
  match err with
  | Some err =>
      if ResponseWasNotFound (Response resp) then
        _ ← d_SetId ""; mret None
      else
        mret (Some (Errorf
          "retrieving Synapse BigDataPool %q (Resource Group %q / workspaceName %q): %+v"
          [name; resourceGroup; workspaceName] (Some (External err))))
  | None =>
  _ ← d_Set "name" (VString name);
  _ ← d_Set "synapse_workspace_id" (VString (SynapseWorkspaceId_String workspace));
  err ← match Properties resp with
        | Some props => setProperties props
        | None => mret None
        end;
  match err with
  | Some err => mret (Some err)
  | None => onData (λ d, let '(d', err) := tags_FlattenAndSet d (Tags resp) in
                         (External <$> err, d'))
  end end end.

(** *** Create/Update (lines 162-227) *)

Definition withNodeCount (nodeCount : option Z) (p : BigDataPoolResourceProperties)
  : BigDataPoolResourceProperties :=
  {| AutoPause := AutoPause p; AutoScale := AutoScale p;
     DefaultSparkLogFolder := DefaultSparkLogFolder p;
     LibraryRequirements := LibraryRequirements p;
     NodeCount := nodeCount;
     NodeSize := NodeSize p; NodeSizeFamily := NodeSizeFamily p;
     SparkEventsFolder := SparkEventsFolder p; SparkVersion := SparkVersion p |}.

(** The payload (lines 188-205); it only reads the resource data. *)
Definition bigDataPoolInfo (d : ResourceData) (workspace : Workspace.t)
  : result BigDataPoolResourceInfo :=
  autoScaleInput ← assertList (Get d "auto_scale");
  autoScale ← expandArmBigDataPoolAutoScaleProperties autoScaleInput;
  autoPauseInput ← assertList (Get d "auto_pause");
  autoPause ← expandArmBigDataPoolAutoPauseProperties autoPauseInput;
  sparkLogFolder ← assertString (Get d "spark_log_folder");
  libraryInput ← assertList (Get d "library_requirement");
  libraryRequirements ← expandArmBigDataPoolLibraryRequirements libraryInput;
  nodeSize ← assertString (Get d "node_size");
  nodeSizeFamily ← assertString (Get d "node_size_family");
  sparkEventsFolder ← assertString (Get d "spark_events_folder");
  sparkVersion ← assertString (Get d "spark_version");
  tagsInput ← assertMap (Get d "tags");
  let props :=
    {| AutoPause := autoPause;
       AutoScale := autoScale;
       DefaultSparkLogFolder := Some sparkLogFolder;
       LibraryRequirements := libraryRequirements;
       NodeCount := None;
       NodeSize := nodeSize;
       NodeSizeFamily := nodeSizeFamily;
       SparkEventsFolder := Some sparkEventsFolder;
       SparkVersion := Some sparkVersion |} in
  autoScale' ← deref autoScale;
  enabled ← deref (AutoScaleProperties.Enabled autoScale');
  props' ← (if negb enabled then
              nodeCount ← assertInt (Get d "node_count");
              Value (withNodeCount (Some (int32 nodeCount)) props)
            else Value props);
  Value {| Response := None;
           Properties := Some props';
           Tags := tags_Expand tagsInput;
           Location := Workspace.Location workspace;
           ID := None |}.

(** From the workspace lookup to the end (lines 183-226). *)
Definition createOrUpdate (name resourceGroup workspaceName : string)
  : M (option error) :=
  '(workspace, err) ← workspaceClient_Get resourceGroup workspaceName;
  match err with
  | Some err =>
      mret (Some (Errorf "reading Synapse workspace %q (Resource Group %q): %+v"
                    [workspaceName; resourceGroup] (Some (External err))))
  | None =>
  d ← d_Data;
  info ← liftResult (bigDataPoolInfo d workspace);
  '(future, err) ← client_CreateOrUpdate resourceGroup workspaceName name info;
  match err with
  | Some err =>
      mret (Some (Errorf
        "creating Synapse BigDataPool %q (Resource Group %q / workspaceName %q): %+v"
        [name; resourceGroup; workspaceName] (Some (External err))))
  | None =>
  err ← future_WaitForCompletionRef future;
  match err with
  | Some err =>
      mret (Some (Errorf
        "waiting on creating future for Synapse BigDataPool %q (Resource Group %q / workspaceName %q): %+v"
        [name; resourceGroup; workspaceName] (Some (External err))))
  | None =>
  '(resp, err) ← client_Get resourceGroup workspaceName name;
  match err with
  | Some err =>
      mret (Some (Errorf
        "retrieving Synapse BigDataPool %q (Resource Group %q / workspaceName %q): %+v"
        [name; resourceGroup; workspaceName] (Some (External err))))
  | None =>
  match ID resp with
  | Some id =>
      if bool_decide (id = "") then
        mret (Some (Errorf
          "empty or nil ID returned for Synapse BigDataPool %q (Resource Group %q / workspaceName %q) ID"
          [name; resourceGroup; workspaceName] None))
      else
        _ ← d_SetId id; resourceArmSynapseBigDataPoolRead
  | None =>
      mret (Some (Errorf
        "empty or nil ID returned for Synapse BigDataPool %q (Resource Group %q / workspaceName %q) ID"
        [name; resourceGroup; workspaceName] None))
  end end end end end.

(** The check for a pool that is already there (lines 171-181). *)
Definition checkExisting (name resourceGroup workspaceName : string)
  : M (option error) :=
  isNew ← d_IsNewResource;
  if (isNew : bool) then
    '(existing, err) ← client_Get resourceGroup workspaceName name;
    let checkID : M (option error) :=
      match ID existing with
      | Some id =>
          if bool_decide (id = "") then mret None
          else mret (Some (ImportAsExistsError "azurerm_synapse_big_data_pool" id))
      | None => mret None
      end in
    match err with
    | Some err =>
        if negb (ResponseWasNotFound (Response existing)) then
          mret (Some (Errorf
            "checking for present of existing Synapse BigDataPool %q (Resource Group %q / workspaceName %q): %+v"
            [name; resourceGroup; workspaceName] (Some (External err))))
        else checkID
    | None => checkID
    end
  else mret None.

(** The error of [parse.SynapseWorkspaceID] is dropped (line 169): after a
    failed parse [workspaceId] is nil, and both branches read a field of
    it before any request is sent. *)
Definition resourceArmSynapseBigDataPoolCreateUpdate : M (option error) :=
  name ← d_GetString "name";
  rawWorkspaceId ← d_GetString "synapse_workspace_id";
  let workspaceId :=
    match parse_SynapseWorkspaceID rawWorkspaceId with
    | inl id => Some id
    | inr _ => None
    end in
  workspaceId ← liftResult (deref workspaceId);
  let resourceGroup := SynapseWorkspaceId.ResourceGroup workspaceId in
  let workspaceName := SynapseWorkspaceId.Name workspaceId in
  err ← checkExisting name resourceGroup workspaceName;
  match err with
  | Some err => mret (Some err)
  | None => createOrUpdate name resourceGroup workspaceName
  end.

(** *** Delete (lines 268-287) *)

Definition resourceArmSynapseBigDataPoolDelete : M (option error) :=
  rawId ← d_Id;
  match parse_SynapseBigDataPoolID rawId with
  | inr err => mret (Some (External err))
  | inl id =>
  let workspace := SynapseBigDataPoolId.Workspace id in
  let resourceGroup := SynapseWorkspaceId.ResourceGroup workspace in
  let workspaceName := SynapseWorkspaceId.Name workspace in
  let name := SynapseBigDataPoolId.Name id in
  '(future, err) ← client_Delete resourceGroup workspaceName name;
  match err with
  | Some err =>
      mret (Some (Errorf
        "deleting Synapse BigDataPool %q (Resource Group %q / workspaceName %q): %+v"
        [name; resourceGroup; workspaceName] (Some (External err))))
  | None =>
  err ← future_WaitForCompletionRef future;
  match err with
  | Some err =>
      mret (Some (Errorf
        "waiting for deleting Synapse BigDataPool %q (Resource Group %q / workspaceName %q): %+v"
        [name; resourceGroup; workspaceName] (Some (External err))))
  | None => mret None
  end end end.

End Provider.

(** ** A small concrete provider, to run the operations on

    Status codes stand for HTTP responses and strings for errors.  An
    identifier parses unless it is empty.  The remote side answers from a
    script: each Get takes the next scripted reply. *)

Definition demoParseWorkspaceID (s : string) : SynapseWorkspaceId.t + string :=
  if bool_decide (s = "") then inr "empty workspace id"
  else inl {| SynapseWorkspaceId.ResourceGroup := "rg"; SynapseWorkspaceId.Name := s |}.

Definition demoParseBigDataPoolID (s : string) : SynapseBigDataPoolId.t + string :=
  if bool_decide (s = "") then inr "empty pool id"
  else inl {| SynapseBigDataPoolId.Workspace :=
                {| SynapseWorkspaceId.ResourceGroup := "rg";
                   SynapseWorkspaceId.Name := "ws" |};
              SynapseBigDataPoolId.Name := s |}.

Definition demoTagsExpand (m : gmap string value) : gmap string (option string) :=
  omap (λ v, match v with VString s => Some (Some s) | _ => None end) m.

Definition demoTagsFlattenAndSet (d : ResourceData) (t : gmap string (option string))
  : ResourceData * option string :=
  ({| Id := Id d; IsNewResource := IsNewResource d;
      fields := <["tags" := VMap (VString <$> omap id t)]> (fields d) |}, None).

#[export] Instance demoHelpers : Helpers := {|
  http_Response := Z;
  ResponseWasNotFound := λ r, match r with Some 404 => true | _ => false end;
  extError := string;
  parse_SynapseWorkspaceID := demoParseWorkspaceID;
  parse_SynapseBigDataPoolID := demoParseBigDataPoolID;
  SynapseWorkspaceId_String := λ w,
    SynapseWorkspaceId.ResourceGroup w +:+ "/" +:+ SynapseWorkspaceId.Name w;
  validate_SynapseBigDataPoolName := hasType TypeString;
  validate_SynapseWorkspaceID := hasType TypeString;
  tags_Expand := demoTagsExpand;
  tags_FlattenAndSet := demoTagsFlattenAndSet;
  setError := λ key _, "cannot set " +:+ key;
|}.

Definition DemoInfo : Type := @BigDataPoolResourceInfo demoHelpers.

Record Script : Type := {
  getReplies : list (DemoInfo * option string);
  workspaceReply : Workspace.t * option string;
  createOrUpdateReply : option string;
  deleteReply : option string;
  waitReply : option string;
}.

Definition demoInfo (status : Z) (props : option BigDataPoolResourceProperties)
  (location id : option string) : DemoInfo :=
  @Build_BigDataPoolResourceInfo demoHelpers (Some status) props ∅ location id.

Definition demoNotFound : DemoInfo * option string :=
  (demoInfo 404 None None None, Some "not found").

Definition demoGet (w : Script) : (DemoInfo * option string) * Script :=
  match getReplies w with
  | [] => (demoNotFound, w)
  | reply :: rest =>
      (reply, {| getReplies := rest; workspaceReply := workspaceReply w;
                 createOrUpdateReply := createOrUpdateReply w;
                 deleteReply := deleteReply w; waitReply := waitReply w |})
  end.

#[export] Instance demoRemote : @Remote demoHelpers := {|
  World := Script;
  Future := unit;
  api_BigDataPoolGet := λ _ _ _ w, demoGet w;
  api_WorkspaceGet := λ _ _ w, (workspaceReply w, w);
  api_BigDataPoolCreateOrUpdate := λ _ _ _ _ w, ((tt, createOrUpdateReply w), w);
  api_BigDataPoolDelete := λ _ _ _ w, ((tt, deleteReply w), w);
  api_WaitForCompletionRef := λ _ w, (waitReply w, w);
|}.

Definition demoFound (id : string) (props : option BigDataPoolResourceProperties)
  : DemoInfo * option string :=
  (demoInfo 200 props (Some "westeurope") (Some id), None).

Definition demoScript (gets : list (DemoInfo * option string)) : Script :=
  {| getReplies := gets;
     workspaceReply := ({| Workspace.Location := Some "westeurope" |}, None);
     createOrUpdateReply := None; deleteReply := None; waitReply := None |}.

(** A pool of three fixed nodes, as configured and as the service reports it. *)
Definition demoConfig : gmap string value :=
  list_to_map
    [ ("name", VString "pool1");
      ("synapse_workspace_id", VString "ws");
      ("node_size_family", VString "MemoryOptimized");
      ("node_size", VString "Small");
      ("node_count", VInt 3);
      ("spark_events_folder", VString "/events");
      ("spark_log_folder", VString "/logs") ].

Definition demoProperties : BigDataPoolResourceProperties :=
  {| AutoPause := Some {| AutoPauseProperties.DelayInMinutes := None;
                          AutoPauseProperties.Enabled := Some false |};
     AutoScale := Some {| AutoScaleProperties.MinNodeCount := None;
                          AutoScaleProperties.Enabled := Some false;
                          AutoScaleProperties.MaxNodeCount := None |};
     DefaultSparkLogFolder := Some "/remote-logs";
     LibraryRequirements := None;
     NodeCount := Some 5;
     NodeSize := "Medium";
     NodeSizeFamily := "MemoryOptimized";
     SparkEventsFolder := Some "/remote-events";
     SparkVersion := Some "2.4" |}.

Definition demoFailure (status : Z) (message : string) : DemoInfo * option string :=
  (demoInfo status None None None, Some message).

(** The payload Create/Update builds from [demoConfig]. *)
Definition demoPayload : DemoInfo :=
  @Build_BigDataPoolResourceInfo demoHelpers None
    (Some {| AutoPause := Some {| AutoPauseProperties.DelayInMinutes := None;
                                  AutoPauseProperties.Enabled := Some false |};
             AutoScale := Some {| AutoScaleProperties.MinNodeCount := None;
                                  AutoScaleProperties.Enabled := Some false;
                                  AutoScaleProperties.MaxNodeCount := None |};
             DefaultSparkLogFolder := Some "/logs";
             LibraryRequirements := None;
             NodeCount := Some 3;
             NodeSize := "Small";
             NodeSizeFamily := "MemoryOptimized";
             SparkEventsFolder := Some "/events";
             SparkVersion := Some "2.4" |})
    ∅ (Some "westeurope") None.

Definition demoData (id : string) (isNew : bool) : ResourceData :=
  {| Id := id; IsNewResource := isNew; fields := demoConfig |}.

(** ** Notions used in the statements *)

(** The remote values the expand converters can produce: [Enabled] is set,
    and the delay or the bounds are set exactly when it is true. *)
Definition normalAutoPause (x : AutoPauseProperties.t) : Prop :=
  match AutoPauseProperties.Enabled x, AutoPauseProperties.DelayInMinutes x with
  | Some false, None => True
  | Some true, Some delay => isInt32 delay
  | _, _ => False
  end.

Definition normalAutoScale (x : AutoScaleProperties.t) : Prop :=
  match AutoScaleProperties.Enabled x,
        AutoScaleProperties.MinNodeCount x, AutoScaleProperties.MaxNodeCount x with
  | Some false, None, None => True
  | Some true, Some minNodeCount, Some maxNodeCount =>
      isInt32 minNodeCount ∧ isInt32 maxNodeCount
  | _, _, _ => False
  end.

Definition normalLibraryRequirements (x : option LibraryRequirements.t) : Prop :=
  match x with
  | None => True
  | Some x =>
      is_Some (LibraryRequirements.Content x) ∧ is_Some (LibraryRequirements.Filename x)
  end.

(** What [d.Get(key)] returns once [d.Set(key, v)] has run. *)
Definition readBack `{Helpers} (key : string) (v : value) (d : ResourceData) : value :=
  Get (Set_ key v d).1 key.

(** The resource group and the workspace name inside a pool identifier. *)
Definition poolResourceGroup (id : SynapseBigDataPoolId.t) : string :=
  SynapseWorkspaceId.ResourceGroup (SynapseBigDataPoolId.Workspace id).

Definition poolWorkspaceName (id : SynapseBigDataPoolId.t) : string :=
  SynapseWorkspaceId.Name (SynapseBigDataPoolId.Workspace id).

(** The fields that [setProperties] and Read write with [d.Set]. *)
Definition readKeys : list string :=
  [ "name"; "synapse_workspace_id"; "auto_pause"; "auto_scale";
    "library_requirement"; "node_count"; "node_size"; "node_size_family";
    "spark_version" ].

(** A policy that is switched off: [Enabled] is nil or points to false. *)
Definition autoPauseOff (x : AutoPauseProperties.t) : Prop :=
  AutoPauseProperties.Enabled x = None ∨ AutoPauseProperties.Enabled x = Some false.

Definition autoScaleOff (x : AutoScaleProperties.t) : Prop :=
  AutoScaleProperties.Enabled x = None ∨ AutoScaleProperties.Enabled x = Some false.

(** The kind of a request, whatever its arguments. *)
Inductive CallKind : Type := KGet | KWorkspaceGet | KWrite | KDelete | KWait.

Definition kind `{Remote} (c : Call) : CallKind :=
  match c with
  | BigDataPoolGet _ _ _ => KGet
  | WorkspaceGet _ _ => KWorkspaceGet
  | BigDataPoolCreateOrUpdate _ _ _ _ => KWrite
  | BigDataPoolDelete _ _ _ => KDelete
  | WaitForCompletionRef _ => KWait
  end.

(** * Properties *)

(** Lookups in a map literal. *)
Ltac go_lookup :=
  repeat first
    [ rewrite lookup_insert_eq
    | rewrite lookup_insert_ne by discriminate
    | rewrite lookup_empty ];
  simpl.

(** ** The converters *)

Lemma int32_id (n : Z) : isInt32 n → int32 n = n.
Proof.
  unfold isInt32, int32. intros Hn.
  rewrite Z.mod_small; lia.
Qed.

Lemma int32_fixed (n : Z) : int32 n = n → isInt32 n.
Proof.
  unfold isInt32, int32. intros Hn.
  pose proof (Z.mod_pos_bound (n + 2 ^ 31) (2 ^ 32) ltac:(lia)). lia.
Qed.

(** C7: on the empty list the expand converters give the disabled default:
    a policy with only [Enabled] set, to false, and a nil library
    requirement. *)
Theorem expand_empty_is_disabled_default :
  expandArmBigDataPoolAutoPauseProperties [] =
    Value (Some {| AutoPauseProperties.DelayInMinutes := None;
                   AutoPauseProperties.Enabled := Some false |})
  ∧ expandArmBigDataPoolAutoScaleProperties [] =
    Value (Some {| AutoScaleProperties.MinNodeCount := None;
                   AutoScaleProperties.Enabled := Some false;
                   AutoScaleProperties.MaxNodeCount := None |})
  ∧ expandArmBigDataPoolLibraryRequirements [] = Value None.
Proof. repeat split. Qed.

(** C9: a policy whose [Enabled] is nil or false flattens to the empty
    list, whatever delay or bounds it carries. *)
Theorem flatten_disabled_is_empty
  (pause : AutoPauseProperties.t) (scale : AutoScaleProperties.t) :
  autoPauseOff pause → autoScaleOff scale →
  flattenArmBigDataPoolAutoPauseProperties (Some pause) = []
  ∧ flattenArmBigDataPoolAutoScaleProperties (Some scale) = [].
Proof.
  intros Hp Hs. split.
  - unfold flattenArmBigDataPoolAutoPauseProperties.
    destruct Hp as [-> | ->]; reflexivity.
  - unfold flattenArmBigDataPoolAutoScaleProperties.
    destruct Hs as [-> | ->]; reflexivity.
Qed.

Lemma flatten_disabled_is_empty_witness :
  flattenArmBigDataPoolAutoPauseProperties
    (Some {| AutoPauseProperties.DelayInMinutes := Some 15;
             AutoPauseProperties.Enabled := Some false |}) = []
  ∧ flattenArmBigDataPoolAutoScaleProperties
    (Some {| AutoScaleProperties.MinNodeCount := Some 3;
             AutoScaleProperties.Enabled := None;
             AutoScaleProperties.MaxNodeCount := Some 10 |}) = [].
Proof.
  apply flatten_disabled_is_empty.
  - right. reflexivity.
  - left. reflexivity.
Defined.

(** C10: on a list whose only element is nil, the auto-scale expand returns
    the disabled result it gives for the empty list; the auto-pause and the
    library-requirement expand have no such guard and panic on the type
    assertion. *)
Theorem expand_nil_element :
  expandArmBigDataPoolAutoScaleProperties [VNil] =
    Value (Some {| AutoScaleProperties.MinNodeCount := None;
                   AutoScaleProperties.Enabled := Some false;
                   AutoScaleProperties.MaxNodeCount := None |})
  ∧ expandArmBigDataPoolAutoScaleProperties [VNil] =
    expandArmBigDataPoolAutoScaleProperties []
  ∧ expandArmBigDataPoolAutoPauseProperties [VNil] = Panic InterfaceConversion
  ∧ expandArmBigDataPoolLibraryRequirements [VNil] = Panic InterfaceConversion.
Proof. repeat split. Qed.

(** *** Round trip *)

(** Against C1 as stated: the nil policy does not come back; flatten gives
    the empty list and expand turns that into the disabled default. *)
Lemma expand_flatten_nil_policy :
  expandArmBigDataPoolAutoPauseProperties
    (flattenArmBigDataPoolAutoPauseProperties None) ≠ Value None
  ∧ expandArmBigDataPoolAutoScaleProperties
      (flattenArmBigDataPoolAutoScaleProperties None) ≠ Value None.
Proof. split; discriminate. Qed.

(** Nor does a disabled policy that carries a delay, or a library requirement
    with one field unset. *)
Example expand_flatten_drops_delay :
  expandArmBigDataPoolAutoPauseProperties
    (flattenArmBigDataPoolAutoPauseProperties
       (Some {| AutoPauseProperties.DelayInMinutes := Some 15;
                AutoPauseProperties.Enabled := Some false |}))
  = Value (Some {| AutoPauseProperties.DelayInMinutes := None;
                   AutoPauseProperties.Enabled := Some false |}).
Proof. reflexivity. Qed.

Example expand_flatten_fills_content :
  expandArmBigDataPoolLibraryRequirements
    (flattenArmBigDataPoolLibraryRequirements
       (Some {| LibraryRequirements.Content := None;
                LibraryRequirements.Filename := Some "requirements.txt" |}))
  = Value (Some {| LibraryRequirements.Content := Some "";
                   LibraryRequirements.Filename := Some "requirements.txt" |}).
Proof. reflexivity. Qed.

(** Flatten writes [int32] entries and expand asserts [int]: fed straight
    back, the flattened form of an enabled policy is refused.  Between
    [d.Set] and [d.Get] the entries are stored as the schema's [int]. *)
Example expand_flatten_direct_int32 :
  expandArmBigDataPoolAutoPauseProperties
    (flattenArmBigDataPoolAutoPauseProperties
       (Some {| AutoPauseProperties.DelayInMinutes := Some 15;
                AutoPauseProperties.Enabled := Some true |}))
  = Panic InterfaceConversion.
Proof. reflexivity. Qed.

Lemma readBack_list `{Helpers} (key : string) (sch : Schema) (l l' : list value)
  (d : ResourceData) :
  lookupSchema key = Some sch →
  writeField sch (VList l) = Some (VList l') →
  readBack key (VList l) d = VList l'.
Proof.
  intros Hsch Hw. unfold readBack, Set_. rewrite Hsch. simpl. rewrite Hw.
  unfold Get. simpl. rewrite lookup_insert_eq. reflexivity.
Qed.

(** C1, as the code has it: expand after flatten gives back a remote value
    exactly when it is in normal form (a policy with [Enabled] set and the
    delay or bounds set exactly when enabled; a library requirement that is
    nil or has both fields set), the flattened policy being read back as
    [d.Set] stores it. *)
Theorem expand_flatten_normal_form `{Helpers} (d : ResourceData)
  (pause : AutoPauseProperties.t) (scale : AutoScaleProperties.t)
  (library : option LibraryRequirements.t) :
  ((assertList (readBack "auto_pause"
                  (VList (flattenArmBigDataPoolAutoPauseProperties (Some pause))) d)
      ≫= expandArmBigDataPoolAutoPauseProperties) = Value (Some pause)
   ↔ normalAutoPause pause)
  ∧ ((assertList (readBack "auto_scale"
                    (VList (flattenArmBigDataPoolAutoScaleProperties (Some scale))) d)
        ≫= expandArmBigDataPoolAutoScaleProperties) = Value (Some scale)
     ↔ normalAutoScale scale)
  ∧ (expandArmBigDataPoolLibraryRequirements
       (flattenArmBigDataPoolLibraryRequirements library) = Value library
     ↔ normalLibraryRequirements library).
Proof.
  repeat split.
  - destruct pause as [[delay|] [[|]|]];
      (erewrite readBack_list; [| reflexivity | reflexivity]);
      simpl; unfold index; go_lookup; intros Heq;
      try (injection Heq; intros; discriminate); try exact I.
    injection Heq as Heq. apply int32_fixed, Heq.
  - intros Hp. destruct pause as [[delay|] [[|]|]]; simpl in Hp; try contradiction.
    + erewrite readBack_list; [| reflexivity | reflexivity].
      simpl. unfold index. go_lookup. rewrite (int32_id _ Hp). reflexivity.
    + erewrite readBack_list; [| reflexivity | reflexivity]. reflexivity.
  - destruct scale as [[mn|] [[|]|] [mx|]];
      (erewrite readBack_list; [| reflexivity | reflexivity]);
      simpl; unfold index; go_lookup; intros Heq;
      try (injection Heq; intros; discriminate); try exact I.
    injection Heq as Hmn Hmx. split; apply int32_fixed; assumption.
  - intros Hs. destruct scale as [[mn|] [[|]|] [mx|]]; simpl in Hs; try contradiction.
    + destruct Hs as [Hmn Hmx].
      erewrite readBack_list; [| reflexivity | reflexivity].
      simpl. unfold index. go_lookup.
      rewrite (int32_id _ Hmn), (int32_id _ Hmx). reflexivity.
    + erewrite readBack_list; [| reflexivity | reflexivity]. reflexivity.
  - destruct library as [[[content|] [filename|]]|]; simpl; intros Heq;
      try (injection Heq; intros; discriminate); eauto.
  - destruct library as [[content filename]|]; [|reflexivity].
    simpl. intros [[c ->] [f ->]]. reflexivity.
Qed.

Lemma expand_flatten_normal_form_witness :
  (assertList (readBack (H := demoHelpers) "auto_pause"
     (VList (flattenArmBigDataPoolAutoPauseProperties
        (Some {| AutoPauseProperties.DelayInMinutes := Some 15;
                 AutoPauseProperties.Enabled := Some true |})))
     (demoData "pool1" false))
     ≫= expandArmBigDataPoolAutoPauseProperties)
  = Value (Some {| AutoPauseProperties.DelayInMinutes := Some 15;
                   AutoPauseProperties.Enabled := Some true |})
  ∧ (assertList (readBack (H := demoHelpers) "auto_scale"
       (VList (flattenArmBigDataPoolAutoScaleProperties
          (Some {| AutoScaleProperties.MinNodeCount := Some 3;
                   AutoScaleProperties.Enabled := Some true;
                   AutoScaleProperties.MaxNodeCount := Some 10 |})))
       (demoData "pool1" false))
       ≫= expandArmBigDataPoolAutoScaleProperties)
  = Value (Some {| AutoScaleProperties.MinNodeCount := Some 3;
                   AutoScaleProperties.Enabled := Some true;
                   AutoScaleProperties.MaxNodeCount := Some 10 |})
  ∧ expandArmBigDataPoolLibraryRequirements
      (flattenArmBigDataPoolLibraryRequirements
         (Some {| LibraryRequirements.Content := Some "numpy";
                  LibraryRequirements.Filename := Some "requirements.txt" |}))
  = Value (Some {| LibraryRequirements.Content := Some "numpy";
                   LibraryRequirements.Filename := Some "requirements.txt" |}).
Proof.
  destruct (expand_flatten_normal_form (H := demoHelpers) (demoData "pool1" false)
              {| AutoPauseProperties.DelayInMinutes := Some 15;
                 AutoPauseProperties.Enabled := Some true |}
              {| AutoScaleProperties.MinNodeCount := Some 3;
                 AutoScaleProperties.Enabled := Some true;
                 AutoScaleProperties.MaxNodeCount := Some 10 |}
              (Some {| LibraryRequirements.Content := Some "numpy";
                       LibraryRequirements.Filename := Some "requirements.txt" |}))
    as (Hpause & Hscale & Hlibrary).
  split; [apply Hpause | split; [apply Hscale | apply Hlibrary]].
  - vm_compute. split; [discriminate | reflexivity].
  - vm_compute. repeat split; discriminate.
  - simpl. split; eexists; reflexivity.
Defined.

(** ** Read *)

#[local] Arguments Set_ : simpl never.
#[local] Arguments Get : simpl never.
#[local] Arguments lookupSchema : simpl never.

(** Runs an operation of the concrete provider: [H : t = value of t]. *)
Ltac evaluate_as H t :=
  let v := eval vm_compute in t in
  assert (H : t = v) by (vm_cast_no_check (eq_refl v)).

(** Steps of the state monad. *)
Ltac step :=
  unfold d_GetString;
  unfold mbind, M_bind, mret, M_ret, d_Id, d_SetId, d_IsNewResource, d_Get,
    d_Data, d_Set, onData, liftResult,
    client_Get, workspaceClient_Get, client_CreateOrUpdate, client_Delete,
    future_WaitForCompletionRef, request, start; simpl.

(** C3: when the Get of a Read fails with a not-found response, Read clears
    the identifier and returns no error; when it fails otherwise, Read
    returns an error and leaves the resource data, identifier included, as
    they were. *)
Theorem read_get_failure `{Remote} (d : ResourceData) (w w' : World)
  (id : SynapseBigDataPoolId.t) (resp : BigDataPoolResourceInfo) (err : extError) :
  parse_SynapseBigDataPoolID (Id d) = inl id →
  api_BigDataPoolGet (poolResourceGroup id) (poolWorkspaceName id)
    (SynapseBigDataPoolId.Name id) w = ((resp, Some err), w') →
  ∃ (result : option error) (d' : ResourceData),
    resourceArmSynapseBigDataPoolRead (start d w) =
      Value (result,
             {| data := d'; world := w';
                calls := [BigDataPoolGet (poolResourceGroup id) (poolWorkspaceName id)
                            (SynapseBigDataPoolId.Name id)] |})
    ∧ if ResponseWasNotFound (Response resp)
      then result = None ∧ d' = SetId "" d ∧ Id d' = ""
      else is_Some result ∧ d' = d.
Proof.
  intros Hparse Hget.
  unfold resourceArmSynapseBigDataPoolRead. step. rewrite Hparse. step.
  unfold poolResourceGroup, poolWorkspaceName in Hget. rewrite Hget.
  destruct (ResponseWasNotFound (Response resp)) eqn:Hnf; step.
  - eexists _, _. split; [reflexivity|]. auto.
  - eexists _, _. split; [reflexivity|]. split; [eauto|]. destruct d; reflexivity.
Qed.

Lemma read_get_failure_witness :
  ∃ (result : option (@error demoHelpers)) (d' : ResourceData),
    resourceArmSynapseBigDataPoolRead (H0 := demoRemote)
      (start (demoData "pool1" false) (demoScript [demoNotFound])) =
      Value (result,
             {| data := d'; world := demoScript [];
                calls := [BigDataPoolGet "rg" "ws" "pool1"] |})
    ∧ (result = None ∧ d' = SetId "" (demoData "pool1" false) ∧ Id d' = "").
Proof.
  pose proof (read_get_failure (H0 := demoRemote)
                (demoData "pool1" false) (demoScript [demoNotFound]) (demoScript [])
                (SynapseBigDataPoolId.mk (SynapseWorkspaceId.mk "rg" "ws") "pool1")
                demoNotFound.1 "not found" eq_refl eq_refl) as Hread.
  exact Hread.
Defined.

(** A failure that is not a not-found keeps the identifier. *)
Example read_server_error_keeps_id :
  ∃ e, resourceArmSynapseBigDataPoolRead (H0 := demoRemote)
         (start (demoData "pool1" false)
                (demoScript [demoFailure 500 "internal server error"])) =
       Value (Some e,
              {| data := demoData "pool1" false; world := demoScript [];
                 calls := [BigDataPoolGet "rg" "ws" "pool1"] |}).
Proof.
  eexists. unfold resourceArmSynapseBigDataPoolRead. step. reflexivity.
Qed.

(** *** What Read writes *)

Lemma Set_other `{Helpers} (key k : string) (v : value) (d : ResourceData) :
  key ≠ k → fields (Set_ key v d).1 !! k = fields d !! k.
Proof.
  intros Hne. unfold Set_.
  destruct (lookupSchema key ≫= _) as [v'|]; simpl; [|reflexivity].
  apply lookup_insert_ne, Hne.
Qed.

Lemma d_Set_other `{Remote} (key k : string) (v : value) (s : State) :
  key ≠ k →
  ∃ err s', d_Set key v s = Value (err, s')
            ∧ fields (data s') !! k = fields (data s) !! k
            ∧ world s' = world s ∧ calls s' = calls s.
Proof.
  intros Hne. unfold d_Set, onData.
  pose proof (Set_other key k v (data s) Hne) as Hother.
  destruct (Set_ key v (data s)) as [d' err]. simpl in *.
  eexists _, _. repeat split. exact Hother.
Qed.

Lemma setProperties_other `{Remote} (props : BigDataPoolResourceProperties)
  (k : string) (s : State) :
  k ∉ readKeys →
  ∃ err s', setProperties props s = Value (err, s')
            ∧ fields (data s') !! k = fields (data s) !! k
            ∧ world s' = world s ∧ calls s' = calls s.
Proof.
  intros Hk. unfold readKeys in Hk. unfold setProperties, mbind, M_bind, mret, M_ret.
  destruct (d_Set_other "auto_pause" k
              (VList (flattenArmBigDataPoolAutoPauseProperties (AutoPause props))) s)
    as (e1 & s1 & -> & Hf1 & Hw1 & Hc1); [intros <-; set_solver|].
  destruct e1; [eauto 10|].
  destruct (d_Set_other "auto_scale" k
              (VList (flattenArmBigDataPoolAutoScaleProperties (AutoScale props))) s1)
    as (e2 & s2 & -> & Hf2 & Hw2 & Hc2); [intros <-; set_solver|].
  destruct e2; [eexists _, _; split; [reflexivity|]; repeat split; congruence|].
  destruct (d_Set_other "library_requirement" k
              (VList (flattenArmBigDataPoolLibraryRequirements (LibraryRequirements props))) s2)
    as (e3 & s3 & -> & Hf3 & Hw3 & Hc3); [intros <-; set_solver|].
  destruct e3; [eexists _, _; split; [reflexivity|]; repeat split; congruence|].
  destruct (d_Set_other "node_count" k (ptrInt32 (NodeCount props)) s3)
    as (e4 & s4 & -> & Hf4 & Hw4 & Hc4); [intros <-; set_solver|].
  destruct (d_Set_other "node_size" k (VString (NodeSize props)) s4)
    as (e5 & s5 & -> & Hf5 & Hw5 & Hc5); [intros <-; set_solver|].
  destruct (d_Set_other "node_size_family" k (VString (NodeSizeFamily props)) s5)
    as (e6 & s6 & -> & Hf6 & Hw6 & Hc6); [intros <-; set_solver|].
  destruct (d_Set_other "spark_version" k (ptrString (SparkVersion props)) s6)
    as (e7 & s7 & -> & Hf7 & Hw7 & Hc7); [intros <-; set_solver|].
  eexists _, _; split; [reflexivity|]; repeat split; congruence.
Qed.

(** Read always returns; it sends at most one request, a Get; and it leaves
    alone every field outside [readKeys] that the tags helper leaves alone. *)
Lemma read_effects `{Remote} (k : string) (s : State) :
  k ∉ readKeys →
  ∃ (result : option error) (s' : State),
    resourceArmSynapseBigDataPoolRead s = Value (result, s')
    ∧ (calls s' = calls s
       ∨ ∃ resourceGroup workspaceName name,
           calls s' = calls s ++ [BigDataPoolGet resourceGroup workspaceName name])
    ∧ ((∀ d t, fields (tags_FlattenAndSet d t).1 !! k = fields d !! k) →
       fields (data s') !! k = fields (data s) !! k).
Proof.
  intros Hk. pose proof Hk as Hk'. unfold readKeys in Hk'.
  unfold resourceArmSynapseBigDataPoolRead, mbind, M_bind, mret, M_ret, d_Id,
    d_SetId, onData, client_Get, request. simpl.
  destruct (parse_SynapseBigDataPoolID (Id (data s))) as [id | perr]; simpl.
  2: { eexists _, _. split; [reflexivity|]. simpl. auto. }
  destruct (api_BigDataPoolGet _ _ _ (world s)) as [[resp [err|]] w1]; simpl.
  { destruct (ResponseWasNotFound (Response resp)); simpl;
      (eexists _, _; split; [reflexivity|]; simpl; eauto 10). }
  match goal with
  | |- context [d_Set "name" ?v ?s0] =>
      destruct (d_Set_other "name" k v s0) as (e1 & s1 & -> & Hf1 & _ & Hc1);
      [intros <-; set_solver|]
  end.
  match goal with
  | |- context [d_Set "synapse_workspace_id" ?v ?s0] =>
      destruct (d_Set_other "synapse_workspace_id" k v s0)
        as (e2 & s2 & -> & Hf2 & _ & Hc2);
      [intros <-; set_solver|]
  end.
  assert (Hprops : ∃ err s3,
             match Properties resp with
             | Some props => setProperties props
             | None => λ s, Value (None, s)
             end s2 = Value (err, s3)
             ∧ fields (data s3) !! k = fields (data s2) !! k
             ∧ calls s3 = calls s2).
  { destruct (Properties resp) as [props|].
    - destruct (setProperties_other props k s2 Hk) as (e & s3 & Hrun & Hf3 & _ & Hc3).
      eauto 10.
    - exists None, s2. repeat split. }
  destruct Hprops as (e3 & s3 & -> & Hf3 & Hc3).
  simpl in *.
  destruct e3 as [e3|].
  - eexists _, _. split; [reflexivity|]. split.
    + right. rewrite Hc3, Hc2, Hc1. simpl. eauto.
    + intros _. congruence.
  - destruct (tags_FlattenAndSet (data s3) (Tags resp)) as [d4 e4] eqn:Htags.
    eexists _, _. split; [reflexivity|]. simpl. split.
    + right. rewrite Hc3, Hc2, Hc1. simpl. eauto.
    + intros Hframe.
      specialize (Hframe (data s3) (Tags resp)). rewrite Htags in Hframe.
      simpl in Hframe. congruence.
Qed.

(** No run of Read writes the two Spark folder fields, as long as the tags
    helper leaves them alone: they keep whatever the resource data held. *)
Lemma read_keeps_spark_folders `{Remote} (d : ResourceData) (w : World) :
  (∀ k d' t, k ≠ "tags" → fields (tags_FlattenAndSet d' t).1 !! k = fields d' !! k) →
  ∃ (result : option error) (s' : State),
    resourceArmSynapseBigDataPoolRead (start d w) = Value (result, s')
    ∧ fields (data s') !! "spark_events_folder" = fields d !! "spark_events_folder"
    ∧ fields (data s') !! "spark_log_folder" = fields d !! "spark_log_folder".
Proof.
  intros Htags.
  assert (Hevents : "spark_events_folder" ∉ readKeys).
  { unfold readKeys. rewrite !not_elem_of_cons.
    repeat split; try discriminate. apply not_elem_of_nil. }
  assert (Hlogs : "spark_log_folder" ∉ readKeys).
  { unfold readKeys. rewrite !not_elem_of_cons.
    repeat split; try discriminate. apply not_elem_of_nil. }
  destruct (read_effects "spark_events_folder" (start d w) Hevents)
    as (result & s' & Hrun & _ & Hkeep).
  destruct (read_effects "spark_log_folder" (start d w) Hlogs)
    as (result' & s'' & Hrun' & _ & Hkeep').
  rewrite Hrun in Hrun'. injection Hrun' as <- <-.
  exists result, s'. split; [exact Hrun|]. split.
  - apply Hkeep. intros d' t. apply Htags. discriminate.
  - apply Hkeep'. intros d' t. apply Htags. discriminate.
Qed.

(** C2, on a run: the service reports the folders [/remote-events] and
    [/remote-logs]; Read takes over the node count and the node size it
    reports, and leaves both folder fields at their local values. *)
Theorem read_skips_spark_folders :
  ∃ s',
    resourceArmSynapseBigDataPoolRead (H0 := demoRemote)
      (start (demoData "pool1" false)
             (demoScript [demoFound "pool1" (Some demoProperties)]))
    = Value (None, s')
    ∧ Get (data s') "node_count" = VInt 5
    ∧ Get (data s') "node_size" = VString "Medium"
    ∧ SparkEventsFolder demoProperties = Some "/remote-events"
    ∧ Get (data s') "spark_events_folder" = VString "/events"
    ∧ DefaultSparkLogFolder demoProperties = Some "/remote-logs"
    ∧ Get (data s') "spark_log_folder" = VString "/logs".
Proof.
  evaluate_as Hrun
    (resourceArmSynapseBigDataPoolRead (H0 := demoRemote)
       (start (demoData "pool1" false)
              (demoScript [demoFound "pool1" (Some demoProperties)]))).
  eexists. split; [exact Hrun|].
  repeat split; vm_compute; reflexivity.
Qed.

(** ** Delete *)

(** C8: Delete never panics and leaves the resource data alone.  It returns
    nil exactly when the identifier parses, the delete is accepted and the
    wait for it succeeds; it then has sent the delete and, after it, the
    wait.  A wait is only ever sent after an accepted delete, as the last
    request. *)
Theorem delete_result `{Remote} (d : ResourceData) (w : World) :
  ∃ (result : option error) (s' : State),
    resourceArmSynapseBigDataPoolDelete (start d w) = Value (result, s')
    ∧ data s' = d
    ∧ (result = None ↔
       ∃ id future w1,
         parse_SynapseBigDataPoolID (Id d) = inl id
         ∧ api_BigDataPoolDelete (poolResourceGroup id) (poolWorkspaceName id)
             (SynapseBigDataPoolId.Name id) w = ((future, None), w1)
         ∧ api_WaitForCompletionRef future w1 = (None, world s'))
    ∧ (∀ future, WaitForCompletionRef future ∈ calls s' →
       ∃ id w1,
         parse_SynapseBigDataPoolID (Id d) = inl id
         ∧ api_BigDataPoolDelete (poolResourceGroup id) (poolWorkspaceName id)
             (SynapseBigDataPoolId.Name id) w = ((future, None), w1)
         ∧ calls s' =
             [BigDataPoolDelete (poolResourceGroup id) (poolWorkspaceName id)
                (SynapseBigDataPoolId.Name id);
              WaitForCompletionRef future])
    ∧ (result = None → ∃ future, WaitForCompletionRef future ∈ calls s').
Proof.
  unfold resourceArmSynapseBigDataPoolDelete, poolResourceGroup, poolWorkspaceName.
  step.
  destruct (parse_SynapseBigDataPoolID (Id d)) as [id | perr] eqn:Hparse; step.
  2: {
    eexists _, _. split; [reflexivity|]. simpl.
    repeat split; try discriminate.
    - intros (? & ? & ? & ? & _). discriminate.
    - intros future Hin. inversion Hin.
  }
  destruct (api_BigDataPoolDelete _ _ _ w) as [[future [derr|]] w1] eqn:Hdel; step.
  { eexists _, _. split; [reflexivity|]. simpl.
    repeat split; try discriminate.
    - intros (id' & future' & w1' & Hid & Hd & _).
      injection Hid as <-. rewrite Hdel in Hd. discriminate.
    - intros f Hin. apply list_elem_of_singleton in Hin. discriminate. }
  destruct (api_WaitForCompletionRef future w1) as [[werr|] w2] eqn:Hwait; step.
  - eexists _, _. split; [reflexivity|]. simpl.
    repeat split; try discriminate.
    + intros (id' & future' & w1' & Hid & Hd & Hw).
      injection Hid as <-. rewrite Hdel in Hd. injection Hd as <- <-.
      rewrite Hwait in Hw. discriminate.
    + intros f Hin.
      apply elem_of_cons in Hin as [Hin | Hin]; [discriminate|].
      apply list_elem_of_singleton in Hin. injection Hin as ->.
      exists id, w1. auto.
  - eexists _, _. split; [reflexivity|]. simpl.
    repeat split.
    + intros _. exists id, future, w1. auto.
    + intros f Hin.
      apply elem_of_cons in Hin as [Hin | Hin]; [discriminate|].
      apply list_elem_of_singleton in Hin. injection Hin as ->.
      exists id, w1. auto.
    + intros _. exists future. set_solver.
Qed.

Lemma delete_result_witness :
  ∃ s',
    resourceArmSynapseBigDataPoolDelete (H0 := demoRemote)
      (start (demoData "pool1" false) (demoScript []))
    = Value (None, s')
    ∧ ∃ future, WaitForCompletionRef future ∈ calls s'.
Proof.
  destruct (delete_result (H0 := demoRemote) (demoData "pool1" false) (demoScript []))
    as (result & s' & Hrun & _ & Hnil & _ & Hsent).
  assert (Hstep : resourceArmSynapseBigDataPoolDelete (H0 := demoRemote)
                    (start (demoData "pool1" false) (demoScript []))
                  = Value (None,
                           {| data := demoData "pool1" false; world := demoScript [];
                              calls := [BigDataPoolDelete "rg" "ws" "pool1";
                                        WaitForCompletionRef ()] |}))
    by reflexivity.
  rewrite Hstep in Hrun. injection Hrun as <- <-.
  eexists. split; [exact Hstep|]. apply Hsent. reflexivity.
Defined.

(** ** Create/Update *)

(** *** Accepted configurations *)

(** What [d.Get] returns for a field the schema check has passed. *)
Lemma Get_validField `{Helpers} (d : ResourceData) (key : string) (sch : Schema) :
  lookupSchema key = Some sch →
  validField (fields d) (key, sch) = true →
  (fields d !! key = None
   ∧ Get d key = default (zeroValue (Type_ sch)) (Default sch))
  ∨ (hasType (Type_ sch) (Get d key) = true
     ∧ ∀ l, Get d key = VList l →
            withinMaxItems (MaxItems sch) l = true
            ∧ forallb (validElem (Elem sch)) l = true).
Proof.
  intros Hsch Hvalid. unfold validField in Hvalid. unfold Get. simpl in Hvalid.
  destruct (fields d !! key) as [v|].
  - right.
    apply andb_prop in Hvalid as [Hvalid Hlist].
    apply andb_prop in Hvalid as [Hty _].
    split; [exact Hty|]. intros l ->. apply andb_prop in Hlist. exact Hlist.
  - left. rewrite Hsch. auto.
Qed.

(** A block list of at most one item is empty or holds one map. *)
Lemma block_cases (elem : list (string * ElemSchema)) (l : list value) :
  withinMaxItems (Some 1%nat) l = true →
  forallb (validElem elem) l = true →
  l = [] ∨ ∃ m, l = [VMap m] ∧ forallb (validElemField m) elem = true.
Proof.
  intros Hmax Hall. destruct l as [|v [|v' l]]; [left; reflexivity | | ].
  - right. simpl in Hall. apply andb_prop in Hall as [Hv _].
    destruct v; try discriminate. eauto.
  - unfold withinMaxItems in Hmax. apply bool_decide_eq_true in Hmax.
    simpl in Hmax. lia.
Qed.

Lemma Get_block `{Helpers} (d : ResourceData) (key : string) (sch : Schema) :
  lookupSchema key = Some sch →
  Type_ sch = TypeList → Default sch = None → MaxItems sch = Some 1%nat →
  validField (fields d) (key, sch) = true →
  Get d key = VList []
  ∨ ∃ m, Get d key = VList [VMap m] ∧ forallb (validElemField m) (Elem sch) = true.
Proof.
  intros Hsch Hty Hdef Hmax Hvalid.
  destruct (Get_validField d key sch Hsch Hvalid) as [[_ Hget] | [Hhas Hlist]].
  - left. rewrite Hget, Hty, Hdef. reflexivity.
  - rewrite Hty in Hhas. destruct (Get d key) as [| | | |l|] eqn:Hget; try discriminate.
    destruct (Hlist l eq_refl) as [Hwithin Hall]. rewrite Hmax in Hwithin.
    destruct (block_cases _ _ Hwithin Hall) as [-> | (m & -> & Hm)]; eauto.
Qed.

Lemma Get_string `{Helpers} (d : ResourceData) (key : string) (sch : Schema) :
  lookupSchema key = Some sch →
  hasType TypeString (default (zeroValue (Type_ sch)) (Default sch)) = true →
  Type_ sch = TypeString →
  validField (fields d) (key, sch) = true →
  ∃ s, Get d key = VString s.
Proof.
  intros Hsch Hdef Hty Hvalid.
  destruct (Get_validField d key sch Hsch Hvalid) as [[_ Hget] | [Hhas _]].
  - rewrite Hget. destruct (default _ _); try discriminate. eauto.
  - rewrite Hty in Hhas. destruct (Get d key); try discriminate. eauto.
Qed.

(** A required int or string field of a block. *)
Lemma validElemField_int (m : gmap string value) (key : string)
  (check : value → bool) :
  validElemField m (key, {| eType := TypeInt; eRequired := true;
                            eValidateFunc := check |}) = true →
  ∃ n, m !! key = Some (VInt n) ∧ check (VInt n) = true.
Proof.
  unfold validElemField. simpl. destruct (m !! key) as [v|]; [|discriminate].
  intros Hv. apply andb_prop in Hv as [Hty Hcheck].
  destruct v; try discriminate. eauto.
Qed.

Lemma validElemField_string (m : gmap string value) (key : string)
  (check : value → bool) :
  validElemField m (key, {| eType := TypeString; eRequired := true;
                            eValidateFunc := check |}) = true →
  ∃ s, m !! key = Some (VString s).
Proof.
  unfold validElemField. simpl. destruct (m !! key) as [v|]; [|discriminate].
  intros Hv. apply andb_prop in Hv as [Hty Hcheck].
  destruct v; try discriminate. eauto.
Qed.


Ltac payload_cases :=
  simpl in *;
  repeat match goal with
         | H : _ ∧ _ |- _ => destruct H
         | H : is_Some None |- _ => destruct H; discriminate
         end;
  try discriminate; eauto.

(** The payload of an accepted configuration. *)
Lemma bigDataPoolInfo_accepted `{Helpers} (d : ResourceData) (workspace : Workspace.t) :
  accepted (fields d) = true →
  ∃ info props autoScale,
    bigDataPoolInfo d workspace = Value info
    ∧ Properties info = Some props
    ∧ AutoScale props = Some autoScale
    ∧ (is_Some (NodeCount props) ↔ Get d "auto_scale" = VList [])
    ∧ (Get d "auto_scale" = VList [] ↔
       AutoScaleProperties.Enabled autoScale = Some false)
    ∧ (is_Some (NodeCount props) ↔
       AutoScaleProperties.MinNodeCount autoScale = None
       ∧ AutoScaleProperties.MaxNodeCount autoScale = None)
    ∧ (NodeCount props = None ↔
       is_Some (AutoScaleProperties.MinNodeCount autoScale)
       ∧ is_Some (AutoScaleProperties.MaxNodeCount autoScale)).
Proof.
  intros Hacc. unfold accepted in Hacc. apply andb_prop in Hacc as [Hacc _].
  unfold bigDataPoolSchema in Hacc. cbn [forallb] in Hacc.
  repeat (let H := fresh "Hfield" in apply andb_prop in Hacc as [H Hacc]).
  clear Hacc.
  assert (Hcount : ∃ n, Get d "node_count" = VInt n).
  { destruct (Get_validField d "node_count" _ eq_refl Hfield3) as [[_ Hget] | [Hhas _]].
    - rewrite Hget. simpl. eauto.
    - simpl in Hhas. destruct (Get d "node_count"); try discriminate. eauto. }
  assert (Htags : ∃ m, Get d "tags" = VMap m).
  { destruct (Get_validField d "tags" _ eq_refl Hfield10) as [[_ Hget] | [Hhas _]].
    - rewrite Hget. simpl. eauto.
    - simpl in Hhas. destruct (Get d "tags"); try discriminate. eauto. }
  destruct Hcount as [n Hn]. destruct Htags as [tagsInput Htags].
  unfold bigDataPoolInfo.
  destruct (Get_string d "spark_log_folder" _ eq_refl eq_refl eq_refl Hfield7)
    as [sparkLogFolder ->].
  destruct (Get_string d "node_size" _ eq_refl eq_refl eq_refl Hfield2)
    as [nodeSize ->].
  destruct (Get_string d "node_size_family" _ eq_refl eq_refl eq_refl Hfield1)
    as [nodeSizeFamily ->].
  destruct (Get_string d "spark_events_folder" _ eq_refl eq_refl eq_refl Hfield6)
    as [sparkEventsFolder ->].
  destruct (Get_string d "spark_version" _ eq_refl eq_refl eq_refl Hfield9)
    as [sparkVersion ->].
  rewrite Htags, Hn.
  assert (Hpause : ∃ input p, Get d "auto_pause" = VList input
              ∧ expandArmBigDataPoolAutoPauseProperties input = Value p).
  { destruct (Get_block d "auto_pause" _ eq_refl eq_refl eq_refl eq_refl Hfield5)
      as [-> | (m & -> & Hm)]; [eexists _, _; split; reflexivity|].
    cbn [Elem forallb] in Hm. apply andb_prop in Hm as [Hdelay _].
    apply validElemField_int in Hdelay as (delay & Hdelay & _).
    eexists _, _. split; [reflexivity|].
    simpl. unfold index. rewrite Hdelay. reflexivity. }
  assert (Hlib : ∃ input l, Get d "library_requirement" = VList input
              ∧ expandArmBigDataPoolLibraryRequirements input = Value l).
  { destruct (Get_block d "library_requirement" _ eq_refl eq_refl eq_refl eq_refl
                Hfield8)
      as [-> | (m & -> & Hm)]; [eexists _, _; split; reflexivity|].
    cbn [Elem forallb] in Hm. apply andb_prop in Hm as [Hcontent Hm].
    apply andb_prop in Hm as [Hfilename _].
    apply validElemField_string in Hcontent as (content & Hcontent).
    apply validElemField_string in Hfilename as (filename & Hfilename).
    eexists _, _. split; [reflexivity|].
    simpl. unfold index. rewrite Hcontent, Hfilename. reflexivity. }
  destruct Hpause as (pauseInput & p & -> & Hpause).
  destruct Hlib as (libInput & l & -> & Hlib).
  destruct (Get_block d "auto_scale" _ eq_refl eq_refl eq_refl eq_refl Hfield4)
    as [-> | (m & -> & Hm)].
  - simpl. rewrite Hpause, Hlib. simpl.
    eexists _, _, _. split; [reflexivity|]. simpl.
    repeat split; intros; payload_cases.
  - cbn [Elem forallb] in Hm. apply andb_prop in Hm as [Hmin Hm].
    apply andb_prop in Hm as [Hmax _].
    apply validElemField_int in Hmin as (minNodeCount & Hmin & _).
    apply validElemField_int in Hmax as (maxNodeCount & Hmax & _).
    simpl. unfold index. rewrite Hmin, Hmax. simpl. rewrite Hpause, Hlib. simpl.
    eexists _, _, _. split; [reflexivity|]. simpl.
    repeat split; intros; payload_cases.
Qed.

(** *** Requests of Create/Update *)

Lemma no_key_not_read : "" ∉ readKeys.
Proof.
  unfold readKeys. rewrite !not_elem_of_cons.
  repeat split; try discriminate. apply not_elem_of_nil.
Qed.

(** Membership of a write in a log built by appending requests. *)
Ltac writes_in Hin :=
  repeat first
    [ rewrite elem_of_app in Hin
    | rewrite elem_of_cons in Hin
    | rewrite elem_of_nil in Hin ];
  repeat match type of Hin with
         | _ ∨ _ => destruct Hin as [Hin | Hin]
         end;
  try discriminate; try contradiction; auto.

Lemma checkExisting_effects `{Remote} (name resourceGroup workspaceName : string)
  (s : State) :
  ∃ (result : option error) (s' : State),
    checkExisting name resourceGroup workspaceName s = Value (result, s')
    ∧ data s' = data s
    ∧ (calls s' = calls s
       ∨ calls s' = calls s ++ [BigDataPoolGet resourceGroup workspaceName name]).
Proof.
  unfold checkExisting. step.
  destruct (IsNewResource (data s)); step; [|eauto 10].
  destruct (api_BigDataPoolGet _ _ _ (world s)) as [[existing err] w1]; step.
  assert (Hid : ∃ result,
            match ID existing with
            | Some id =>
                if bool_decide (id = "") then λ s0 : State, Value (None, s0)
                else λ s0 : State,
                  Value (Some (ImportAsExistsError "azurerm_synapse_big_data_pool" id), s0)
            | None => λ s0 : State, Value (None, s0)
            end {| data := data s; world := w1;
                   calls := calls s ++ [BigDataPoolGet resourceGroup workspaceName name] |}
            = Value (result,
                     {| data := data s; world := w1;
                        calls := calls s ++ [BigDataPoolGet resourceGroup workspaceName name] |})).
  { destruct (ID existing) as [id|]; [destruct (bool_decide (id = ""))|]; eauto. }
  destruct Hid as [result Hid].
  destruct err as [err|]; [destruct (ResponseWasNotFound (Response existing))|]; simpl;
    eexists _, _; (split; [first [exact Hid | reflexivity]|]); simpl; auto.
Qed.

Lemma createOrUpdate_writes `{Remote} (name resourceGroup workspaceName : string)
  (s : State) (result : option error) (s' : State)
  (a b c : string) (info : BigDataPoolResourceInfo) :
  createOrUpdate name resourceGroup workspaceName s = Value (result, s') →
  BigDataPoolCreateOrUpdate a b c info ∈ calls s' →
  BigDataPoolCreateOrUpdate a b c info ∈ calls s
  ∨ ∃ workspace, bigDataPoolInfo (data s) workspace = Value info.
Proof.
  unfold createOrUpdate. step.
  destruct (api_WorkspaceGet _ _ (world s)) as [[workspace [err|]] w1]; step.
  { intros [= <- <-] Hin. simpl in Hin. writes_in Hin. }
  destruct (bigDataPoolInfo (data s) workspace) as [payload|] eqn:Hpayload;
    [|discriminate]. step.
  destruct (api_BigDataPoolCreateOrUpdate _ _ _ payload w1) as [[future [err|]] w2]; step.
  { intros [= <- <-] Hin. simpl in Hin. writes_in Hin.
    injection Hin as -> -> -> ->. eauto. }
  destruct (api_WaitForCompletionRef future w2) as [[err|] w3]; step.
  { intros [= <- <-] Hin. simpl in Hin. writes_in Hin.
    injection Hin as -> -> -> ->. eauto. }
  destruct (api_BigDataPoolGet _ _ _ w3) as [[resp [err|]] w4]; step.
  { intros [= <- <-] Hin. simpl in Hin. writes_in Hin.
    injection Hin as -> -> -> ->. eauto. }
  assert (Hlog :
            BigDataPoolCreateOrUpdate a b c info ∈
              (((calls s ++ [WorkspaceGet resourceGroup workspaceName]) ++
                [BigDataPoolCreateOrUpdate resourceGroup workspaceName name payload]) ++
               [WaitForCompletionRef future]) ++
              [BigDataPoolGet resourceGroup workspaceName name] →
            BigDataPoolCreateOrUpdate a b c info ∈ calls s
            ∨ ∃ workspace, bigDataPoolInfo (data s) workspace = Value info).
  { intros Hin. writes_in Hin. injection Hin as -> -> -> ->. eauto. }
  destruct (ID resp) as [id|]; [destruct (bool_decide (id = ""))|]; step.
  - intros [= <- <-]. exact Hlog.
  - match goal with
    | |- resourceArmSynapseBigDataPoolRead ?s0 = _ → _ =>
        destruct (read_effects "" s0) as (r & s1 & Hrun & Hcalls & _);
        [exact no_key_not_read|]; rewrite Hrun
    end.
    intros [= <- <-] Hin.
    destruct Hcalls as [Hcalls | (x & y & z & Hcalls)]; rewrite Hcalls in Hin;
      simpl in Hin.
    + exact (Hlog Hin).
    + apply elem_of_app in Hin as [Hin | Hin]; [exact (Hlog Hin)|writes_in Hin].
  - intros [= <- <-]. exact Hlog.
Qed.

Lemma createOrUpdate_submits `{Remote} (name resourceGroup workspaceName : string)
  (s : State) (workspace : Workspace.t) (w1 : World) (info : BigDataPoolResourceInfo) :
  api_WorkspaceGet resourceGroup workspaceName (world s) = ((workspace, None), w1) →
  bigDataPoolInfo (data s) workspace = Value info →
  ∃ (result : option error) (s' : State),
    createOrUpdate name resourceGroup workspaceName s = Value (result, s')
    ∧ BigDataPoolCreateOrUpdate resourceGroup workspaceName name info ∈ calls s'.
Proof.
  intros Hws Hinfo. unfold createOrUpdate. step. rewrite Hws. step.
  rewrite Hinfo. step.
  destruct (api_BigDataPoolCreateOrUpdate _ _ _ info w1) as [[future [err|]] w2]; step.
  { eexists _, _. split; [reflexivity|]. simpl. set_solver. }
  destruct (api_WaitForCompletionRef future w2) as [[err|] w3]; step.
  { eexists _, _. split; [reflexivity|]. simpl. set_solver. }
  destruct (api_BigDataPoolGet _ _ _ w3) as [[resp [err|]] w4]; step.
  { eexists _, _. split; [reflexivity|]. simpl. set_solver. }
  destruct (ID resp) as [id|]; [destruct (bool_decide (id = ""))|]; step.
  - eexists _, _. split; [reflexivity|]. simpl. set_solver.
  - match goal with
    | |- context [resourceArmSynapseBigDataPoolRead ?s0] =>
        destruct (read_effects "" s0) as (r & s1 & Hrun & Hcalls & _);
        [exact no_key_not_read|]; rewrite Hrun
    end.
    eexists _, _. split; [reflexivity|].
    destruct Hcalls as [-> | (x & y & z & ->)]; simpl; set_solver.
  - eexists _, _. split; [reflexivity|]. simpl. set_solver.
Qed.

(** C4: on a Create, when the preliminary Get comes back with a non-empty
    identifier, Create/Update returns an error having sent that Get and
    nothing else; the error is the import-as-exists error when the Get itself
    succeeded.  When the Get reports not-found and carries no identifier,
    Create/Update goes on with the workspace lookup, the payload and the
    write: once the lookup succeeds and the payload is built, the write is
    sent with that payload. *)
Theorem create_existing_check `{Remote} (d : ResourceData) (w w1 : World)
  (name rawWorkspaceId : string) (workspaceId : SynapseWorkspaceId.t)
  (existing : BigDataPoolResourceInfo) (err : option extError) :
  IsNewResource d = true →
  Get d "name" = VString name →
  Get d "synapse_workspace_id" = VString rawWorkspaceId →
  parse_SynapseWorkspaceID rawWorkspaceId = inl workspaceId →
  api_BigDataPoolGet (SynapseWorkspaceId.ResourceGroup workspaceId)
    (SynapseWorkspaceId.Name workspaceId) name w = ((existing, err), w1) →
  (∀ id, ID existing = Some id → id ≠ "" →
     ∃ e, resourceArmSynapseBigDataPoolCreateUpdate (start d w) =
          Value (Some e,
                 {| data := d; world := w1;
                    calls := [BigDataPoolGet (SynapseWorkspaceId.ResourceGroup workspaceId)
                                (SynapseWorkspaceId.Name workspaceId) name] |})
          ∧ (err = None → e = ImportAsExistsError "azurerm_synapse_big_data_pool" id))
  ∧ (is_Some err → ResponseWasNotFound (Response existing) = true →
     ID existing = None ∨ ID existing = Some "" →
     resourceArmSynapseBigDataPoolCreateUpdate (start d w) =
       createOrUpdate name (SynapseWorkspaceId.ResourceGroup workspaceId)
         (SynapseWorkspaceId.Name workspaceId)
         {| data := d; world := w1;
            calls := [BigDataPoolGet (SynapseWorkspaceId.ResourceGroup workspaceId)
                        (SynapseWorkspaceId.Name workspaceId) name] |}
     ∧ ∀ workspace w2 info,
         api_WorkspaceGet (SynapseWorkspaceId.ResourceGroup workspaceId)
           (SynapseWorkspaceId.Name workspaceId) w1 = ((workspace, None), w2) →
         bigDataPoolInfo d workspace = Value info →
         ∃ result s',
           resourceArmSynapseBigDataPoolCreateUpdate (start d w) = Value (result, s')
           ∧ BigDataPoolCreateOrUpdate (SynapseWorkspaceId.ResourceGroup workspaceId)
               (SynapseWorkspaceId.Name workspaceId) name info ∈ calls s').
Proof.
  intros Hnew Hname Hraw Hparse Hget.
  unfold resourceArmSynapseBigDataPoolCreateUpdate, checkExisting. step.
  rewrite Hname. simpl. rewrite Hraw. simpl. rewrite Hparse. simpl.
  rewrite Hnew. simpl. rewrite Hget. simpl.
  split.
  - intros id Hid Hne. rewrite Hid.
    rewrite bool_decide_eq_false_2 by exact Hne.
    destruct err as [err|]; [destruct (ResponseWasNotFound (Response existing))|];
      simpl; eexists; (split; [reflexivity|]); try discriminate. reflexivity.
  - intros [e ->] -> Hid. simpl.
    destruct Hid as [Hid | Hid]; rewrite Hid; simpl;
      (split; [reflexivity|]);
      intros workspace w2 info Hws Hinfo;
      apply (createOrUpdate_submits name _ _
               {| data := d; world := w1; calls := _ |} workspace w2 info Hws Hinfo).
Qed.

Lemma create_existing_check_witness :
  ∃ e, resourceArmSynapseBigDataPoolCreateUpdate (H0 := demoRemote)
         (start (demoData "" true)
                (demoScript [demoFound "pool1" (Some demoProperties)])) =
       Value (Some e,
              {| data := demoData "" true; world := demoScript [];
                 calls := [BigDataPoolGet "rg" "ws" "pool1"] |})
       ∧ e = ImportAsExistsError "azurerm_synapse_big_data_pool" "pool1".
Proof.
  destruct (create_existing_check (H0 := demoRemote)
              (demoData "" true)
              (demoScript [demoFound "pool1" (Some demoProperties)]) (demoScript [])
              "pool1" "ws" (SynapseWorkspaceId.mk "rg" "ws")
              (demoFound "pool1" (Some demoProperties)).1 None
              eq_refl eq_refl eq_refl eq_refl eq_refl) as [Hfound _].
  destruct (Hfound "pool1" eq_refl ltac:(discriminate)) as (e & Hrun & He).
  exists e. split; [exact Hrun | exact (He eq_refl)].
Defined.

(** Between the check and the write sits the workspace lookup: when it
    fails, Create/Update stops there and no write is sent. *)
Example create_workspace_lookup_fails :
  ∃ e, resourceArmSynapseBigDataPoolCreateUpdate (H0 := demoRemote)
         (start (demoData "" true)
                {| getReplies := [demoNotFound];
                   workspaceReply := (Workspace.mk None, Some "workspace not found");
                   createOrUpdateReply := None; deleteReply := None;
                   waitReply := None |}) =
       Value (Some e,
              {| data := demoData "" true;
                 world := {| getReplies := [];
                             workspaceReply :=
                               (Workspace.mk None, Some "workspace not found");
                             createOrUpdateReply := None; deleteReply := None;
                             waitReply := None |};
                 calls := [BigDataPoolGet "rg" "ws" "pool1"; WorkspaceGet "rg" "ws"] |}).
Proof.
  eexists.
  unfold resourceArmSynapseBigDataPoolCreateUpdate, checkExisting, createOrUpdate.
  step. reflexivity.
Qed.

(** *** The payload that is sent *)

(** C5: whenever Create/Update, run on an accepted configuration, sends a
    write, the payload has [NodeCount] set exactly when the configuration has
    no [auto_scale] block, which is exactly when the expanded auto-scale
    policy has [Enabled] false; so the payload carries either the fixed node
    count or both auto-scale bounds, never both and never neither. *)
Theorem payload_fixed_count_xor_auto_scale `{Remote} (d : ResourceData) (w : World)
  (result : option error) (s' : State)
  (resourceGroup workspaceName name : string) (info : BigDataPoolResourceInfo) :
  accepted (fields d) = true →
  resourceArmSynapseBigDataPoolCreateUpdate (start d w) = Value (result, s') →
  BigDataPoolCreateOrUpdate resourceGroup workspaceName name info ∈ calls s' →
  ∃ props autoScale,
    Properties info = Some props
    ∧ AutoScale props = Some autoScale
    ∧ (is_Some (NodeCount props) ↔ Get d "auto_scale" = VList [])
    ∧ (Get d "auto_scale" = VList [] ↔
       AutoScaleProperties.Enabled autoScale = Some false)
    ∧ (is_Some (NodeCount props) ↔
       AutoScaleProperties.MinNodeCount autoScale = None
       ∧ AutoScaleProperties.MaxNodeCount autoScale = None)
    ∧ (NodeCount props = None ↔
       is_Some (AutoScaleProperties.MinNodeCount autoScale)
       ∧ is_Some (AutoScaleProperties.MaxNodeCount autoScale)).
Proof.
  intros Hacc Hrun Hin.
  assert (Hpayload : ∃ workspace, bigDataPoolInfo d workspace = Value info).
  { revert Hrun. unfold resourceArmSynapseBigDataPoolCreateUpdate. step.
    destruct (assertString (Get d "name")) as [name'|]; [|discriminate]. simpl.
    destruct (assertString (Get d "synapse_workspace_id")) as [raw|]; [|discriminate].
    simpl.
    destruct (parse_SynapseWorkspaceID raw) as [workspaceId|]; [|discriminate]. simpl.
    match goal with
    | |- context [checkExisting ?n ?rg ?ws ?s] =>
        destruct (checkExisting_effects n rg ws s) as (r0 & s0 & Hcheck & Hdata & Hcalls);
        rewrite Hcheck
    end.
    simpl in Hdata, Hcalls.
    assert (Hnone : BigDataPoolCreateOrUpdate resourceGroup workspaceName name info
                    ∉ calls s0).
    { intros Hw. destruct Hcalls as [Hcalls | Hcalls]; rewrite Hcalls in Hw;
        writes_in Hw. }
    destruct r0 as [e|].
    - intros [= <- <-]. contradiction.
    - intros Hrun.
      destruct (createOrUpdate_writes _ _ _ _ _ _ _ _ _ _ Hrun Hin) as [Hold | Hnew];
        [contradiction|].
      rewrite Hdata in Hnew. exact Hnew. }
  destruct Hpayload as [workspace Hpayload].
  destruct (bigDataPoolInfo_accepted d workspace Hacc)
    as (info' & props & autoScale & Hinfo & Hprops).
  rewrite Hpayload in Hinfo. injection Hinfo as <-. eauto.
Qed.

Lemma payload_fixed_count_xor_auto_scale_witness :
  ∃ props autoScale,
    Properties demoPayload = Some props
    ∧ AutoScale props = Some autoScale
    ∧ (is_Some (NodeCount props) ↔ Get (demoData "" true) "auto_scale" = VList [])
    ∧ (Get (demoData "" true) "auto_scale" = VList [] ↔
       AutoScaleProperties.Enabled autoScale = Some false)
    ∧ (is_Some (NodeCount props) ↔
       AutoScaleProperties.MinNodeCount autoScale = None
       ∧ AutoScaleProperties.MaxNodeCount autoScale = None)
    ∧ (NodeCount props = None ↔
       is_Some (AutoScaleProperties.MinNodeCount autoScale)
       ∧ is_Some (AutoScaleProperties.MaxNodeCount autoScale)).
Proof.
  evaluate_as Hrun
    (resourceArmSynapseBigDataPoolCreateUpdate (H0 := demoRemote)
       (start (demoData "" true)
          (demoScript [demoNotFound; demoFound "pool1" (Some demoProperties);
                       demoFound "pool1" (Some demoProperties)]))).
  refine (payload_fixed_count_xor_auto_scale (H0 := demoRemote)
            (demoData "" true) _ _ _ "rg" "ws" "pool1" demoPayload _ Hrun _).
  - vm_compute. reflexivity.
  - simpl. repeat constructor.
Defined.

(** *** The identifier that is stored *)



(** The identifier is stored before the closing Read, and Read may clear it
    again: here the pool is gone by the time Read asks for it, and
    Create/Update returns nil with an empty identifier. *)
Example create_then_read_not_found :
  ∃ s', resourceArmSynapseBigDataPoolCreateUpdate (H0 := demoRemote)
          (start (demoData "" true)
             (demoScript [demoNotFound; demoFound "pool1" (Some demoProperties);
                          demoNotFound])) = Value (None, s')
        ∧ Id (data s') = ""
        ∧ calls s' = [BigDataPoolGet "rg" "ws" "pool1";
                      WorkspaceGet "rg" "ws";
                      BigDataPoolCreateOrUpdate "rg" "ws" "pool1" demoPayload;
                      WaitForCompletionRef ();
                      BigDataPoolGet "rg" "ws" "pool1";
                      BigDataPoolGet "rg" "ws" "pool1"].
Proof.
  evaluate_as Hrun
    (resourceArmSynapseBigDataPoolCreateUpdate (H0 := demoRemote)
       (start (demoData "" true)
          (demoScript [demoNotFound; demoFound "pool1" (Some demoProperties);
                       demoNotFound]))).
  eexists. split; [exact Hrun|]. split; reflexivity.
Qed.

(** * Further properties *)

(** ** The converters, from the configuration side *)

Lemma int32_range (n : Z) : isInt32 (int32 n).
Proof.
  unfold isInt32, int32.
  pose proof (Z.mod_pos_bound (n + 2 ^ 31) (2 ^ 32) ltac:(lia)). lia.
Qed.

Lemma int32_idempotent (n : Z) : int32 (int32 n) = int32 n.
Proof. apply int32_id, int32_range. Qed.

(** X1: an auto-pause block of the configuration that is absent, or holds
    exactly a delay within [int32], survives expand, flatten and the typed
    write unchanged. *)
Theorem flatten_expand_auto_pause `{Helpers} (d : ResourceData) (n : Z)
  (input : list value) :
  input = [] ∨ (input = [VMap (<["delay_in_minutes" := VInt n]> ∅)] ∧ isInt32 n) →
  ∃ p, expandArmBigDataPoolAutoPauseProperties input = Value p
       ∧ readBack "auto_pause" (VList (flattenArmBigDataPoolAutoPauseProperties p)) d
         = VList input.
Proof.
  intros [-> | [-> Hn]].
  - eexists. split; [reflexivity|].
    erewrite readBack_list; [| reflexivity | reflexivity]. reflexivity.
  - eexists. split; [reflexivity|]. unfold index. go_lookup.
    erewrite readBack_list; [| reflexivity | reflexivity].
    rewrite (int32_id _ Hn). reflexivity.
Qed.

Lemma flatten_expand_auto_pause_witness :
  ∃ p, expandArmBigDataPoolAutoPauseProperties
         [VMap (<["delay_in_minutes" := VInt 15]> ∅)] = Value p
       ∧ readBack (H := demoHelpers) "auto_pause"
           (VList (flattenArmBigDataPoolAutoPauseProperties p))
           (demoData "pool1" false)
         = VList [VMap (<["delay_in_minutes" := VInt 15]> ∅)].
Proof.
  apply (flatten_expand_auto_pause (H := demoHelpers) (demoData "pool1" false) 15).
  right. split; [reflexivity | unfold isInt32; lia].
Defined.

(** X2: the same for an auto-scale block that is absent or holds exactly the
    two bounds, both within [int32]. *)
Theorem flatten_expand_auto_scale `{Helpers} (d : ResourceData) (a b : Z)
  (input : list value) :
  input = []
  ∨ (input = [VMap (<["min_node_count" := VInt a]>
                      (<["max_node_count" := VInt b]> ∅))]
     ∧ isInt32 a ∧ isInt32 b) →
  ∃ p, expandArmBigDataPoolAutoScaleProperties input = Value p
       ∧ readBack "auto_scale" (VList (flattenArmBigDataPoolAutoScaleProperties p)) d
         = VList input.
Proof.
  intros [-> | (-> & Ha & Hb)].
  - eexists. split; [reflexivity|].
    erewrite readBack_list; [| reflexivity | reflexivity]. reflexivity.
  - eexists. split; [reflexivity|]. unfold index. go_lookup.
    erewrite readBack_list; [| reflexivity | reflexivity].
    rewrite (int32_id _ Ha), (int32_id _ Hb). reflexivity.
Qed.

Lemma flatten_expand_auto_scale_witness :
  ∃ p, expandArmBigDataPoolAutoScaleProperties
         [VMap (<["min_node_count" := VInt 3]> (<["max_node_count" := VInt 10]> ∅))]
       = Value p
       ∧ readBack (H := demoHelpers) "auto_scale"
           (VList (flattenArmBigDataPoolAutoScaleProperties p))
           (demoData "pool1" false)
         = VList [VMap (<["min_node_count" := VInt 3]>
                          (<["max_node_count" := VInt 10]> ∅))].
Proof.
  apply (flatten_expand_auto_scale (H := demoHelpers) (demoData "pool1" false) 3 10).
  right. split; [reflexivity | unfold isInt32; lia].
Defined.

(** X3: a library requirement of the configuration that is absent, or holds
    exactly a content and a file name, survives expand and flatten
    unchanged. *)
Theorem flatten_expand_library_requirement (content filename : string)
  (input : list value) :
  input = []
  ∨ input = [VMap (<["content" := VString content]>
                     (<["filename" := VString filename]> ∅))] →
  ∃ l, expandArmBigDataPoolLibraryRequirements input = Value l
       ∧ flattenArmBigDataPoolLibraryRequirements l = input.
Proof.
  intros [-> | ->]; eexists; (split; [reflexivity|]); reflexivity.
Qed.

Lemma flatten_expand_library_requirement_witness :
  ∃ l, expandArmBigDataPoolLibraryRequirements
         [VMap (<["content" := VString "numpy"]>
                  (<["filename" := VString "requirements.txt"]> ∅))] = Value l
       ∧ flattenArmBigDataPoolLibraryRequirements l
         = [VMap (<["content" := VString "numpy"]>
                    (<["filename" := VString "requirements.txt"]> ∅))].
Proof.
  apply (flatten_expand_library_requirement "numpy" "requirements.txt").
  right. reflexivity.
Defined.

(** ** When the expand converters panic *)

(** X4: the auto-pause expand returns exactly on the empty list and on a
    list whose first element is a map holding an [int] under
    [delay_in_minutes]; on every other list it panics. *)
Theorem expand_auto_pause_defined_iff (input : list value) :
  (∃ p, expandArmBigDataPoolAutoPauseProperties input = Value p)
  ↔ input = []
    ∨ ∃ m n rest, input = VMap m :: rest ∧ m !! "delay_in_minutes" = Some (VInt n).
Proof.
  split.
  - intros [p Hp]. destruct input as [|v rest]; [left; reflexivity|]. right.
    destruct v as [| | | | |m]; try discriminate. simpl in Hp. unfold index in Hp.
    destruct (m !! "delay_in_minutes") as [[|n| | | |]|] eqn:Hd; try discriminate.
    eauto.
  - intros [-> | (m & n & rest & -> & Hd)]; [eexists; reflexivity|].
    simpl. unfold index. rewrite Hd. eexists. reflexivity.
Qed.

Lemma expand_auto_pause_defined_iff_witness :
  ¬ ∃ p, expandArmBigDataPoolAutoPauseProperties
           [VMap (<["delay_in_minutes" := VString "15"]> ∅)] = Value p.
Proof.
  intros Hp.
  apply (expand_auto_pause_defined_iff
           [VMap (<["delay_in_minutes" := VString "15"]> ∅)]) in Hp.
  destruct Hp as [Hp | (m & n & rest & [= <- _] & Hn)]; [discriminate|].
  vm_compute in Hn. discriminate.
Defined.

(** X5: the auto-scale expand returns exactly on the empty list, on a list
    whose first element is nil, and on a list whose first element is a map
    holding an [int] under each of [min_node_count] and [max_node_count]. *)
Theorem expand_auto_scale_defined_iff (input : list value) :
  (∃ p, expandArmBigDataPoolAutoScaleProperties input = Value p)
  ↔ input = []
    ∨ (∃ rest, input = VNil :: rest)
    ∨ ∃ m a b rest, input = VMap m :: rest
                    ∧ m !! "min_node_count" = Some (VInt a)
                    ∧ m !! "max_node_count" = Some (VInt b).
Proof.
  split.
  - intros [p Hp]. destruct input as [|v rest]; [left; reflexivity|]. right.
    destruct v as [| | | | |m]; try discriminate; [left; eauto|]. right.
    simpl in Hp. unfold index in Hp.
    destruct (m !! "min_node_count") as [[|a| | | |]|] eqn:Ha; try discriminate.
    destruct (m !! "max_node_count") as [[|b| | | |]|] eqn:Hb; try discriminate.
    eauto 10.
  - intros [-> | [[rest ->] | (m & a & b & rest & -> & Ha & Hb)]];
      [eexists; reflexivity | eexists; reflexivity |].
    simpl. unfold index. rewrite Ha, Hb. eexists. reflexivity.
Qed.

Lemma expand_auto_scale_defined_iff_witness :
  ¬ ∃ p, expandArmBigDataPoolAutoScaleProperties
           [VMap (<["min_node_count" := VInt 3]> ∅)] = Value p.
Proof.
  intros Hp.
  apply (expand_auto_scale_defined_iff [VMap (<["min_node_count" := VInt 3]> ∅)])
    in Hp.
  destruct Hp as [Hp | [[rest Hp] | (m & a & b & rest & [= <- _] & _ & Hb)]];
    [discriminate | discriminate |].
  vm_compute in Hb. discriminate.
Defined.

(** X6: the library-requirement expand returns exactly on the empty list and
    on a list whose first element is a map holding a string under each of
    [content] and [filename]. *)
Theorem expand_library_requirement_defined_iff (input : list value) :
  (∃ l, expandArmBigDataPoolLibraryRequirements input = Value l)
  ↔ input = []
    ∨ ∃ m content filename rest, input = VMap m :: rest
                                 ∧ m !! "content" = Some (VString content)
                                 ∧ m !! "filename" = Some (VString filename).
Proof.
  split.
  - intros [l Hl]. destruct input as [|v rest]; [left; reflexivity|]. right.
    destruct v as [| | | | |m]; try discriminate.
    simpl in Hl. unfold index in Hl.
    destruct (m !! "content") as [[| | |c| |]|] eqn:Hc; try discriminate.
    destruct (m !! "filename") as [[| | |f| |]|] eqn:Hf; try discriminate.
    eauto 10.
  - intros [-> | (m & c & f & rest & -> & Hc & Hf)]; [eexists; reflexivity|].
    simpl. unfold index. rewrite Hc, Hf. eexists. reflexivity.
Qed.

Lemma expand_library_requirement_defined_iff_witness :
  ¬ ∃ l, expandArmBigDataPoolLibraryRequirements [VNil] = Value l.
Proof.
  intros Hl. apply (expand_library_requirement_defined_iff [VNil]) in Hl.
  destruct Hl as [Hl | (m & c & f & rest & Hl & _)]; discriminate.
Defined.

(** ** The conversion to [int32] *)

(** X7: the expand converters hand the delay and the bounds of a block over
    unchanged exactly when they are within [int32]; a number outside it is
    wrapped. *)
Theorem expand_numbers_exact_iff (pause scale : gmap string value)
  (rest : list value) (delay a b : Z) :
  pause !! "delay_in_minutes" = Some (VInt delay) →
  scale !! "min_node_count" = Some (VInt a) →
  scale !! "max_node_count" = Some (VInt b) →
  (expandArmBigDataPoolAutoPauseProperties (VMap pause :: rest)
   = Value (Some {| AutoPauseProperties.DelayInMinutes := Some delay;
                    AutoPauseProperties.Enabled := Some true |})
   ↔ isInt32 delay)
  ∧ (expandArmBigDataPoolAutoScaleProperties (VMap scale :: rest)
     = Value (Some {| AutoScaleProperties.MinNodeCount := Some a;
                      AutoScaleProperties.Enabled := Some true;
                      AutoScaleProperties.MaxNodeCount := Some b |})
     ↔ isInt32 a ∧ isInt32 b).
Proof.
  intros Hd Ha Hb. split.
  - simpl. unfold index. rewrite Hd. simpl. split.
    + intros Heq. injection Heq as Heq. apply int32_fixed, Heq.
    + intros Hn. rewrite (int32_id _ Hn). reflexivity.
  - simpl. unfold index. rewrite Ha, Hb. simpl. split.
    + intros Heq. injection Heq as Heqa Heqb. split; apply int32_fixed; assumption.
    + intros [Hna Hnb]. rewrite (int32_id _ Hna), (int32_id _ Hnb). reflexivity.
Qed.

Lemma expand_numbers_exact_iff_witness :
  expandArmBigDataPoolAutoPauseProperties
    [VMap (<["delay_in_minutes" := VInt (2 ^ 31)]> ∅)]
  ≠ Value (Some {| AutoPauseProperties.DelayInMinutes := Some (2 ^ 31);
                   AutoPauseProperties.Enabled := Some true |})
  ∧ expandArmBigDataPoolAutoScaleProperties
      [VMap (<["min_node_count" := VInt 3]> (<["max_node_count" := VInt 10]> ∅))]
    = Value (Some {| AutoScaleProperties.MinNodeCount := Some 3;
                     AutoScaleProperties.Enabled := Some true;
                     AutoScaleProperties.MaxNodeCount := Some 10 |}).
Proof.
  destruct (expand_numbers_exact_iff
              (<["delay_in_minutes" := VInt (2 ^ 31)]> ∅)
              (<["min_node_count" := VInt 3]> (<["max_node_count" := VInt 10]> ∅))
              [] (2 ^ 31) 3 10) as [Hpause Hscale];
    [vm_compute; reflexivity ..|].
  split.
  - intros Heq. apply Hpause in Heq. unfold isInt32 in Heq. lia.
  - apply Hscale. unfold isInt32. lia.
Defined.

(** Expanding what flatten and the typed write made of an expanded block
    gives that block again. *)
Lemma stored_auto_pause_expands `{Helpers} (d : ResourceData) (input : list value)
  (p : option AutoPauseProperties.t) :
  expandArmBigDataPoolAutoPauseProperties input = Value p →
  assertList (readBack "auto_pause"
                (VList (flattenArmBigDataPoolAutoPauseProperties p)) d)
    ≫= expandArmBigDataPoolAutoPauseProperties = Value p.
Proof.
  destruct input as [|v rest].
  - intros [= <-]. erewrite readBack_list; [| reflexivity | reflexivity]. reflexivity.
  - destruct v as [| | | | |m]; try discriminate.
    intros Hp. simpl in Hp. unfold index in Hp.
    destruct (m !! "delay_in_minutes") as [[|n| | | |]|]; try discriminate.
    injection Hp as <-. erewrite readBack_list; [| reflexivity | reflexivity].
    simpl. unfold index. go_lookup. rewrite int32_idempotent. reflexivity.
Qed.

Lemma stored_auto_scale_expands `{Helpers} (d : ResourceData) (input : list value)
  (p : option AutoScaleProperties.t) :
  expandArmBigDataPoolAutoScaleProperties input = Value p →
  assertList (readBack "auto_scale"
                (VList (flattenArmBigDataPoolAutoScaleProperties p)) d)
    ≫= expandArmBigDataPoolAutoScaleProperties = Value p.
Proof.
  destruct input as [|v rest].
  - intros [= <-]. erewrite readBack_list; [| reflexivity | reflexivity]. reflexivity.
  - destruct v as [| | | | |m]; try discriminate.
    + intros [= <-]. erewrite readBack_list; [| reflexivity | reflexivity].
      reflexivity.
    + intros Hp. simpl in Hp. unfold index in Hp.
      destruct (m !! "min_node_count") as [[|a| | | |]|]; try discriminate.
      destruct (m !! "max_node_count") as [[|b| | | |]|]; try discriminate.
      injection Hp as <-. erewrite readBack_list; [| reflexivity | reflexivity].
      simpl. unfold index. go_lookup. rewrite !int32_idempotent. reflexivity.
Qed.

Lemma flattened_library_expands (input : list value)
  (l : option LibraryRequirements.t) :
  expandArmBigDataPoolLibraryRequirements input = Value l →
  expandArmBigDataPoolLibraryRequirements
    (flattenArmBigDataPoolLibraryRequirements l) = Value l.
Proof.
  destruct input as [|v rest].
  - intros [= <-]. reflexivity.
  - destruct v as [| | | | |m]; try discriminate. simpl. unfold index.
    destruct (m !! "content") as [[| | |c| |]|]; try discriminate.
    destruct (m !! "filename") as [[| | |f| |]|]; try discriminate.
    intros [= <-]. reflexivity.
Qed.

(** X8: whatever an expand converter returns, flattening it, storing it and
    expanding it again returns the same value: what expand produces is
    already in the form that the way through flatten keeps, wrapped
    numbers included. *)
Theorem expand_flatten_expand `{Helpers} (d : ResourceData)
  (pauseInput scaleInput libraryInput : list value)
  (pause : option AutoPauseProperties.t) (scale : option AutoScaleProperties.t)
  (library : option LibraryRequirements.t) :
  expandArmBigDataPoolAutoPauseProperties pauseInput = Value pause →
  expandArmBigDataPoolAutoScaleProperties scaleInput = Value scale →
  expandArmBigDataPoolLibraryRequirements libraryInput = Value library →
  assertList (readBack "auto_pause"
                (VList (flattenArmBigDataPoolAutoPauseProperties pause)) d)
    ≫= expandArmBigDataPoolAutoPauseProperties = Value pause
  ∧ assertList (readBack "auto_scale"
                  (VList (flattenArmBigDataPoolAutoScaleProperties scale)) d)
      ≫= expandArmBigDataPoolAutoScaleProperties = Value scale
  ∧ expandArmBigDataPoolLibraryRequirements
      (flattenArmBigDataPoolLibraryRequirements library) = Value library.
Proof.
  intros Hpause Hscale Hlibrary. split; [|split].
  - exact (stored_auto_pause_expands d pauseInput pause Hpause).
  - exact (stored_auto_scale_expands d scaleInput scale Hscale).
  - exact (flattened_library_expands libraryInput library Hlibrary).
Qed.

Lemma expand_flatten_expand_witness :
  assertList (readBack (H := demoHelpers) "auto_pause"
                (VList (flattenArmBigDataPoolAutoPauseProperties
                          (Some {| AutoPauseProperties.DelayInMinutes :=
                                     Some (- 2 ^ 31);
                                   AutoPauseProperties.Enabled := Some true |})))
                (demoData "pool1" false))
    ≫= expandArmBigDataPoolAutoPauseProperties
  = Value (Some {| AutoPauseProperties.DelayInMinutes := Some (- 2 ^ 31);
                   AutoPauseProperties.Enabled := Some true |})
  ∧ assertList (readBack (H := demoHelpers) "auto_scale"
                  (VList (flattenArmBigDataPoolAutoScaleProperties
                            (Some {| AutoScaleProperties.MinNodeCount := None;
                                     AutoScaleProperties.Enabled := Some false;
                                     AutoScaleProperties.MaxNodeCount := None |})))
                  (demoData "pool1" false))
      ≫= expandArmBigDataPoolAutoScaleProperties
    = Value (Some {| AutoScaleProperties.MinNodeCount := None;
                     AutoScaleProperties.Enabled := Some false;
                     AutoScaleProperties.MaxNodeCount := None |})
  ∧ expandArmBigDataPoolLibraryRequirements
      (flattenArmBigDataPoolLibraryRequirements None) = Value None.
Proof.
  exact (expand_flatten_expand (H := demoHelpers) (demoData "pool1" false)
           [VMap (<["delay_in_minutes" := VInt (2 ^ 31)]> ∅)] [VNil] []
           _ _ _ eq_refl eq_refl eq_refl).
Defined.

(** ** Read, request by request *)

(** X9: Read always returns.  When the identifier does not parse it returns
    the parse error, sends nothing and changes nothing; when it parses, Read
    sends exactly one request, the Get for the pool the identifier names,
    whatever the answer. *)
Theorem read_requests `{Remote} (d : ResourceData) (w : World) :
  ∃ (result : option error) (s' : State),
    resourceArmSynapseBigDataPoolRead (start d w) = Value (result, s')
    ∧ match parse_SynapseBigDataPoolID (Id d) with
      | inl id =>
          calls s' = [BigDataPoolGet (poolResourceGroup id) (poolWorkspaceName id)
                        (SynapseBigDataPoolId.Name id)]
          ∧ world s' = (api_BigDataPoolGet (poolResourceGroup id) (poolWorkspaceName id)
                          (SynapseBigDataPoolId.Name id) w).2
      | inr err =>
          result = Some (External err) ∧ s' = start d w
      end.
Proof.
  unfold resourceArmSynapseBigDataPoolRead, poolResourceGroup, poolWorkspaceName,
    mbind, M_bind, mret, M_ret, d_Id, d_SetId, onData, client_Get, request, start.
  simpl.
  destruct (parse_SynapseBigDataPoolID (Id d)) as [id | perr]; simpl.
  2: { eexists _, _. split; [reflexivity|]. auto. }
  destruct (api_BigDataPoolGet _ _ _ w) as [[resp [err|]] w1]; simpl.
  { destruct (ResponseWasNotFound (Response resp)); simpl;
      (eexists _, _; split; [reflexivity|]; simpl; auto). }
  match goal with
  | |- context [d_Set "name" ?v ?s0] =>
      destruct (d_Set_other "name" "" v s0) as (e1 & s1 & -> & _ & Hw1 & Hc1);
      [discriminate|]
  end.
  match goal with
  | |- context [d_Set "synapse_workspace_id" ?v ?s0] =>
      destruct (d_Set_other "synapse_workspace_id" "" v s0)
        as (e2 & s2 & -> & _ & Hw2 & Hc2);
      [discriminate|]
  end.
  assert (Hprops : ∃ err s3,
             match Properties resp with
             | Some props => setProperties props
             | None => λ s, Value (None, s)
             end s2 = Value (err, s3)
             ∧ world s3 = world s2 ∧ calls s3 = calls s2).
  { destruct (Properties resp) as [props|].
    - destruct (setProperties_other props "" s2 no_key_not_read)
        as (e & s3 & Hrun & _ & Hw3 & Hc3).
      eauto 10.
    - exists None, s2. repeat split. }
  destruct Hprops as (e3 & s3 & -> & Hw3 & Hc3).
  simpl in *.
  destruct e3 as [e3|].
  - eexists _, _. split; [reflexivity|]. split; congruence.
  - destruct (tags_FlattenAndSet (data s3) (Tags resp)) as [d4 e4].
    eexists _, _. split; [reflexivity|]. simpl. split; congruence.
Qed.

(** ** What Read stores *)

(** A [d.Set] that the typed write accepts stores the written value and
    returns nil. *)
Lemma d_Set_written `{Remote} (key : string) (v v' : value) (s : State) :
  lookupSchema key ≫= (λ sch, writeField sch v) = Some v' →
  d_Set key v s = Value (None,
                         {| data := {| Id := Id (data s);
                                       IsNewResource := IsNewResource (data s);
                                       fields := <[key := v']> (fields (data s)) |};
                            world := world s; calls := calls s |}).
Proof. intros Hw. unfold d_Set, onData, Set_. rewrite Hw. reflexivity. Qed.

Lemma d_Set_ok `{Remote} (key : string) (sch : Schema) (v v' : value) (s : State) :
  lookupSchema key = Some sch →
  writeField sch v = Some v' →
  d_Set key v s = Value (None,
                         {| data := {| Id := Id (data s);
                                       IsNewResource := IsNewResource (data s);
                                       fields := <[key := v']> (fields (data s)) |};
                            world := world s; calls := calls s |}).
Proof. intros Hsch Hw. apply d_Set_written. rewrite Hsch. exact Hw. Qed.

(** The typed write accepts whatever the flatten converters return. *)
Lemma write_auto_pause `{Helpers} (sch : Schema) (x : option AutoPauseProperties.t) :
  lookupSchema "auto_pause" = Some sch →
  ∃ l, writeField sch (VList (flattenArmBigDataPoolAutoPauseProperties x)) = Some (VList l).
Proof.
  intros Hsch. injection Hsch as <-.
  destruct x as [[delay [[|]|]]|]; eexists; reflexivity.
Qed.

Lemma write_auto_scale `{Helpers} (sch : Schema) (x : option AutoScaleProperties.t) :
  lookupSchema "auto_scale" = Some sch →
  ∃ l, writeField sch (VList (flattenArmBigDataPoolAutoScaleProperties x)) = Some (VList l).
Proof.
  intros Hsch. injection Hsch as <-.
  destruct x as [[mn [[|]|] mx]|]; eexists; reflexivity.
Qed.

Lemma write_library_requirement `{Helpers} (sch : Schema)
  (x : option LibraryRequirements.t) :
  lookupSchema "library_requirement" = Some sch →
  ∃ l, writeField sch (VList (flattenArmBigDataPoolLibraryRequirements x))
       = Some (VList l).
Proof.
  intros Hsch. injection Hsch as <-.
  destruct x as [[c f]|]; eexists; reflexivity.
Qed.

(** Projections of a state or resource data that has just been built. *)
Ltac norm_state := cbn [data world calls fields Id IsNewResource].

(** X10: when the identifier parses and the Get succeeds, no [d.Set] of Read
    fails: Read hands the resource data to the tags helper and returns what
    the helper returns.  By then the identifier is unchanged, [name] and
    [synapse_workspace_id] hold the parts of the identifier and, when the
    answer has properties, the seven property fields hold the flattened
    answer, a nil node count as 0 and a nil Spark version as the empty
    string; when it has none, every other field is as it was. *)
Theorem read_success `{Remote} (d : ResourceData) (w w' : World)
  (id : SynapseBigDataPoolId.t) (resp : BigDataPoolResourceInfo) :
  parse_SynapseBigDataPoolID (Id d) = inl id →
  api_BigDataPoolGet (poolResourceGroup id) (poolWorkspaceName id)
    (SynapseBigDataPoolId.Name id) w = ((resp, None), w') →
  ∃ d1 : ResourceData,
    resourceArmSynapseBigDataPoolRead (start d w) =
      Value (External <$> (tags_FlattenAndSet d1 (Tags resp)).2,
             {| data := (tags_FlattenAndSet d1 (Tags resp)).1; world := w';
                calls := [BigDataPoolGet (poolResourceGroup id) (poolWorkspaceName id)
                            (SynapseBigDataPoolId.Name id)] |})
    ∧ Id d1 = Id d
    ∧ Get d1 "name" = VString (SynapseBigDataPoolId.Name id)
    ∧ Get d1 "synapse_workspace_id" =
      VString (SynapseWorkspaceId_String (SynapseBigDataPoolId.Workspace id))
    ∧ match Properties resp with
      | Some props =>
          Get d1 "auto_pause" =
            readBack "auto_pause"
              (VList (flattenArmBigDataPoolAutoPauseProperties (AutoPause props))) d
          ∧ Get d1 "auto_scale" =
            readBack "auto_scale"
              (VList (flattenArmBigDataPoolAutoScaleProperties (AutoScale props))) d
          ∧ Get d1 "library_requirement" =
            VList (flattenArmBigDataPoolLibraryRequirements (LibraryRequirements props))
          ∧ Get d1 "node_count" = VInt (default 0 (NodeCount props))
          ∧ Get d1 "node_size" = VString (NodeSize props)
          ∧ Get d1 "node_size_family" = VString (NodeSizeFamily props)
          ∧ Get d1 "spark_version" = VString (default "" (SparkVersion props))
      | None =>
          ∀ k, k ≠ "name" → k ≠ "synapse_workspace_id" →
               fields d1 !! k = fields d !! k
      end.
Proof.
  intros Hparse Hget.
  unfold resourceArmSynapseBigDataPoolRead, poolResourceGroup, poolWorkspaceName in *.
  unfold mbind, M_bind, mret, M_ret, d_Id, onData, client_Get, request, start.
  cbn [data world calls fst snd]. rewrite Hparse. cbn [data world calls].
  rewrite Hget. cbn [data world calls app].
  rewrite (d_Set_written "name" _ (VString (SynapseBigDataPoolId.Name id)))
    by (vm_compute; reflexivity).
  norm_state.
  rewrite (d_Set_written "synapse_workspace_id" _
             (VString (SynapseWorkspaceId_String (SynapseBigDataPoolId.Workspace id))))
    by (vm_compute; reflexivity).
  norm_state.
  destruct (Properties resp) as [props|].
  - unfold setProperties, mbind, M_bind, mret, M_ret.
    destruct (write_auto_pause _ (AutoPause props) eq_refl) as [pause Hpause].
    destruct (write_auto_scale _ (AutoScale props) eq_refl) as [scale Hscale].
    destruct (write_library_requirement _ (LibraryRequirements props) eq_refl)
      as [library Hlibrary].
    erewrite (d_Set_ok "auto_pause"); [| reflexivity | exact Hpause].
    norm_state.
    erewrite (d_Set_ok "auto_scale"); [| reflexivity | exact Hscale].
    norm_state.
    erewrite (d_Set_ok "library_requirement"); [| reflexivity | exact Hlibrary].
    norm_state.
    rewrite (d_Set_written "node_count" _ (VInt (default 0 (NodeCount props))))
      by (destruct (NodeCount props); vm_compute; reflexivity).
    norm_state.
    rewrite (d_Set_written "node_size" _ (VString (NodeSize props)))
      by (vm_compute; reflexivity).
    norm_state.
    rewrite (d_Set_written "node_size_family" _ (VString (NodeSizeFamily props)))
      by (vm_compute; reflexivity).
    norm_state.
    rewrite (d_Set_written "spark_version" _
               (VString (default "" (SparkVersion props))))
      by (destruct (SparkVersion props); vm_compute; reflexivity).
    norm_state. unfold onData. norm_state.
    match goal with
    | |- context [tags_FlattenAndSet ?d1 _] => exists d1
    end.
    destruct (tags_FlattenAndSet _ (Tags resp)) as [d2 e2].
    cbn [fst snd fields Id].
    split; [reflexivity|]. split; [reflexivity|].
    rewrite (readBack_list "auto_pause" _ _ _ d eq_refl Hpause).
    rewrite (readBack_list "auto_scale" _ _ _ d eq_refl Hscale).
    unfold Get. cbn [fields].
    repeat first
      [ rewrite lookup_insert_eq
      | rewrite lookup_insert_ne by discriminate ].
    repeat split; try reflexivity.
    revert Hlibrary. clear. destruct (LibraryRequirements props) as [[c f]|].
    + destruct c, f; intros [= <-]; reflexivity.
    + intros [= <-]. reflexivity.
  - unfold onData. norm_state.
    match goal with
    | |- context [tags_FlattenAndSet ?d1 _] => exists d1
    end.
    destruct (tags_FlattenAndSet _ (Tags resp)) as [d2 e2].
    cbn [fst snd fields Id].
    split; [reflexivity|]. split; [reflexivity|].
    unfold Get. cbn [fields].
    repeat first
      [ rewrite lookup_insert_eq
      | rewrite lookup_insert_ne by discriminate ].
    repeat split.
    intros k Hk1 Hk2. rewrite !lookup_insert_ne by congruence. reflexivity.
Qed.

Lemma read_success_witness :
  ∃ d1 : ResourceData,
    resourceArmSynapseBigDataPoolRead (H0 := demoRemote)
      (start (demoData "pool1" false)
         (demoScript [demoFound "pool1" (Some demoProperties)])) =
      Value (External <$>
               (tags_FlattenAndSet d1
                  (Tags (demoFound "pool1" (Some demoProperties)).1)).2,
             {| data := (tags_FlattenAndSet d1
                           (Tags (demoFound "pool1" (Some demoProperties)).1)).1;
                world := demoScript [];
                calls := [BigDataPoolGet "rg" "ws" "pool1"] |})
    ∧ Get d1 "node_count" = VInt 5
    ∧ Get d1 "node_size" = VString "Medium".
Proof.
  destruct (read_success (H0 := demoRemote)
              (demoData "pool1" false)
              (demoScript [demoFound "pool1" (Some demoProperties)]) (demoScript [])
              (SynapseBigDataPoolId.mk (SynapseWorkspaceId.mk "rg" "ws") "pool1")
              (demoFound "pool1" (Some demoProperties)).1 eq_refl eq_refl)
    as (d1 & Hrun & _ & _ & _ & Hprops).
  exists d1. split; [exact Hrun|].
  cbn [Properties demoFound demoInfo fst] in Hprops.
  destruct Hprops as (_ & _ & _ & Hcount & Hsize & _).
  split; [exact Hcount | exact Hsize].
Defined.

(** ** Read after a write *)

(** What a payload that was built tells about the fields it was built from. *)
Lemma payload_fields `{Helpers} (d : ResourceData) (workspace : Workspace.t)
  (info : BigDataPoolResourceInfo) :
  bigDataPoolInfo d workspace = Value info →
  ∃ props scale scaleInput pauseInput libraryInput logFolder eventsFolder version
    tagsInput enabled,
    Properties info = Some props
    ∧ Get d "auto_scale" = VList scaleInput
    ∧ expandArmBigDataPoolAutoScaleProperties scaleInput = Value (Some scale)
    ∧ AutoScale props = Some scale
    ∧ Get d "auto_pause" = VList pauseInput
    ∧ expandArmBigDataPoolAutoPauseProperties pauseInput = Value (AutoPause props)
    ∧ Get d "spark_log_folder" = VString logFolder
    ∧ Get d "library_requirement" = VList libraryInput
    ∧ expandArmBigDataPoolLibraryRequirements libraryInput
      = Value (LibraryRequirements props)
    ∧ Get d "node_size" = VString (NodeSize props)
    ∧ Get d "node_size_family" = VString (NodeSizeFamily props)
    ∧ Get d "spark_events_folder" = VString eventsFolder
    ∧ SparkVersion props = Some version
    ∧ Get d "spark_version" = VString version
    ∧ Get d "tags" = VMap tagsInput
    ∧ AutoScaleProperties.Enabled scale = Some enabled
    ∧ if enabled then NodeCount props = None
      else ∃ n, Get d "node_count" = VInt n ∧ NodeCount props = Some (int32 n).
Proof.
  intros Hinfo. unfold bigDataPoolInfo in Hinfo.
  destruct (Get d "auto_scale") as [| | | |scaleInput|] eqn:Hscale_get;
    try discriminate.
  cbn [assertList mbind result_bind] in Hinfo.
  destruct (expandArmBigDataPoolAutoScaleProperties scaleInput) as [autoScale|]
    eqn:Hscale; [|discriminate].
  destruct (Get d "auto_pause") as [| | | |pauseInput|] eqn:Hpause_get;
    try discriminate.
  cbn [assertList mbind result_bind] in Hinfo.
  destruct (expandArmBigDataPoolAutoPauseProperties pauseInput) as [autoPause|]
    eqn:Hpause; [|discriminate].
  destruct (Get d "spark_log_folder") as [| | |logFolder| |] eqn:HlogFolder;
    try discriminate.
  destruct (Get d "library_requirement") as [| | | |libraryInput|] eqn:Hlibrary_get;
    try discriminate.
  cbn [assertList assertString mbind result_bind] in Hinfo.
  destruct (expandArmBigDataPoolLibraryRequirements libraryInput) as [library|]
    eqn:Hlibrary; [|discriminate].
  destruct (Get d "node_size") as [| | |nodeSize| |] eqn:Hsize; try discriminate.
  destruct (Get d "node_size_family") as [| | |family| |] eqn:Hfamily;
    try discriminate.
  destruct (Get d "spark_events_folder") as [| | |eventsFolder| |] eqn:HeventsFolder;
    try discriminate.
  destruct (Get d "spark_version") as [| | |version| |] eqn:Hversion;
    try discriminate.
  destruct (Get d "tags") as [| | | | |tagsInput] eqn:Htags; try discriminate.
  cbn [assertString assertMap mbind result_bind] in Hinfo.
  destruct autoScale as [scale|]; [|discriminate].
  cbn [deref mbind result_bind] in Hinfo.
  destruct (AutoScaleProperties.Enabled scale) as [enabled|] eqn:Henabled;
    [|discriminate].
  cbn [deref mbind result_bind] in Hinfo.
  destruct enabled; cbn [negb mbind result_bind] in Hinfo.
  - injection Hinfo as <-.
    eexists _, scale, scaleInput, pauseInput, libraryInput, logFolder, eventsFolder,
      version, tagsInput, true.
    cbn [Properties]. repeat split; try reflexivity; assumption.
  - destruct (Get d "node_count") as [|n| | | |] eqn:Hcount; try discriminate.
    cbn [assertInt mbind result_bind] in Hinfo. injection Hinfo as <-.
    eexists _, scale, scaleInput, pauseInput, libraryInput, logFolder, eventsFolder,
      version, tagsInput, false.
    cbn [Properties]. repeat split; try reflexivity; try assumption.
    exists n. split; reflexivity.
Qed.

(** X11: when the service reports for a pool the very properties that
    Create/Update builds from the resource data, a Read leaves no difference
    behind: the data it hands to the tags helper give the same payload
    again. *)
Theorem read_keeps_payload `{Remote} (d : ResourceData) (w w' : World)
  (id : SynapseBigDataPoolId.t) (workspace : Workspace.t)
  (info resp : BigDataPoolResourceInfo) :
  parse_SynapseBigDataPoolID (Id d) = inl id →
  bigDataPoolInfo d workspace = Value info →
  api_BigDataPoolGet (poolResourceGroup id) (poolWorkspaceName id)
    (SynapseBigDataPoolId.Name id) w = ((resp, None), w') →
  Properties resp = Properties info →
  ∃ d1 : ResourceData,
    resourceArmSynapseBigDataPoolRead (start d w) =
      Value (External <$> (tags_FlattenAndSet d1 (Tags resp)).2,
             {| data := (tags_FlattenAndSet d1 (Tags resp)).1; world := w';
                calls := [BigDataPoolGet (poolResourceGroup id) (poolWorkspaceName id)
                            (SynapseBigDataPoolId.Name id)] |})
    ∧ bigDataPoolInfo d1 workspace = Value info.
Proof.
  intros Hparse Hinfo Hget Hsame.
  destruct (payload_fields d workspace info Hinfo)
    as (props & scale & scaleInput & pauseInput & libraryInput & logFolder
        & eventsFolder & version & tagsInput & enabled & Hprops & Hscale_get
        & Hscale & Hscale_props & Hpause_get & Hpause & HlogFolder & Hlibrary_get
        & Hlibrary & Hsize & Hfamily & HeventsFolder & Hversion_props & Hversion
        & Htags & Henabled & Hcount).
  rewrite Hprops in Hsame.
  unfold resourceArmSynapseBigDataPoolRead, poolResourceGroup, poolWorkspaceName in *.
  unfold mbind, M_bind, mret, M_ret, d_Id, onData, client_Get, request, start.
  cbn [data world calls fst snd]. rewrite Hparse. cbn [data world calls].
  rewrite Hget. cbn [data world calls app].
  rewrite (d_Set_written "name" _ (VString (SynapseBigDataPoolId.Name id)))
    by (vm_compute; reflexivity).
  norm_state.
  rewrite (d_Set_written "synapse_workspace_id" _
             (VString (SynapseWorkspaceId_String (SynapseBigDataPoolId.Workspace id))))
    by (vm_compute; reflexivity).
  norm_state. rewrite Hsame.
  unfold setProperties, mbind, M_bind, mret, M_ret.
  destruct (write_auto_pause _ (AutoPause props) eq_refl) as [pause' Hpause'].
  destruct (write_auto_scale _ (AutoScale props) eq_refl) as [scale' Hscale'].
  destruct (write_library_requirement _ (LibraryRequirements props) eq_refl)
    as [library' Hlibrary'].
  erewrite (d_Set_ok "auto_pause"); [| reflexivity | exact Hpause'].
  norm_state.
  erewrite (d_Set_ok "auto_scale"); [| reflexivity | exact Hscale'].
  norm_state.
  erewrite (d_Set_ok "library_requirement"); [| reflexivity | exact Hlibrary'].
  norm_state.
  rewrite (d_Set_written "node_count" _ (VInt (default 0 (NodeCount props))))
    by (destruct (NodeCount props); vm_compute; reflexivity).
  norm_state.
  rewrite (d_Set_written "node_size" _ (VString (NodeSize props)))
    by (vm_compute; reflexivity).
  norm_state.
  rewrite (d_Set_written "node_size_family" _ (VString (NodeSizeFamily props)))
    by (vm_compute; reflexivity).
  norm_state.
  rewrite (d_Set_written "spark_version" _
             (VString (default "" (SparkVersion props))))
    by (destruct (SparkVersion props); vm_compute; reflexivity).
  norm_state. unfold onData. norm_state.
  match goal with
  | |- context [tags_FlattenAndSet ?d1 _] => exists d1
  end.
  split; [destruct (tags_FlattenAndSet _ (Tags resp)); reflexivity|].
  (* the stored blocks expand to the policies that were sent *)
  pose proof (stored_auto_pause_expands d _ _ Hpause) as Hpause_back.
  rewrite (readBack_list "auto_pause" _ _ _ d eq_refl Hpause') in Hpause_back.
  pose proof (stored_auto_scale_expands d _ _ Hscale) as Hscale_back.
  rewrite <- Hscale_props in Hscale_back.
  rewrite (readBack_list "auto_scale" _ _ _ d eq_refl Hscale') in Hscale_back.
  pose proof (flattened_library_expands _ _ Hlibrary) as Hlibrary_back.
  assert (Hflat : library'
                  = flattenArmBigDataPoolLibraryRequirements (LibraryRequirements props)).
  { revert Hlibrary'. clear. destruct (LibraryRequirements props) as [[c f]|].
    - destruct c, f; intros [= <-]; reflexivity.
    - intros [= <-]. reflexivity. }
  subst library'.
  cbn [assertList mbind result_bind] in Hpause_back, Hscale_back.
  rewrite <- Hinfo. unfold bigDataPoolInfo, Get. cbn [fields].
  repeat first
    [ rewrite lookup_insert_eq
    | rewrite lookup_insert_ne by discriminate ].
  fold (Get d "auto_scale"). fold (Get d "auto_pause").
  fold (Get d "spark_log_folder"). fold (Get d "library_requirement").
  fold (Get d "node_size"). fold (Get d "node_size_family").
  fold (Get d "spark_events_folder"). fold (Get d "spark_version").
  fold (Get d "tags"). fold (Get d "node_count").
  rewrite Hscale_get, Hpause_get, HlogFolder, Hlibrary_get, Hsize, Hfamily,
    HeventsFolder, Hversion, Htags, Hversion_props.
  cbn [assertList assertString assertMap mbind result_bind default].
  rewrite Hscale_back, Hpause_back, Hlibrary_back, Hscale, Hpause, Hlibrary.
  cbn [mbind result_bind]. rewrite Hscale_props.
  cbn [deref mbind result_bind]. rewrite Henabled.
  cbn [deref mbind result_bind].
  destruct enabled; cbn [negb mbind result_bind]; [reflexivity|].
  destruct Hcount as (n & Hcount & Hn). rewrite Hcount, Hn.
  cbn [assertInt mbind result_bind default Datatypes.id].
  rewrite int32_idempotent. reflexivity.
Qed.

Lemma read_keeps_payload_witness :
  ∃ d1 : ResourceData,
    resourceArmSynapseBigDataPoolRead (H0 := demoRemote)
      (start (demoData "pool1" false)
         (demoScript [demoFound "pool1" (Properties demoPayload)])) =
      Value (External <$>
               (tags_FlattenAndSet d1
                  (Tags (demoFound "pool1" (Properties demoPayload)).1)).2,
             {| data := (tags_FlattenAndSet d1
                           (Tags (demoFound "pool1" (Properties demoPayload)).1)).1;
                world := demoScript [];
                calls := [BigDataPoolGet "rg" "ws" "pool1"] |})
    ∧ bigDataPoolInfo d1 (Workspace.mk (Some "westeurope")) = Value demoPayload.
Proof.
  exact (read_keeps_payload (H0 := demoRemote)
           (demoData "pool1" false)
           (demoScript [demoFound "pool1" (Properties demoPayload)]) (demoScript [])
           (SynapseBigDataPoolId.mk (SynapseWorkspaceId.mk "rg" "ws") "pool1")
           (Workspace.mk (Some "westeurope")) demoPayload
           (demoFound "pool1" (Properties demoPayload)).1
           eq_refl eq_refl eq_refl eq_refl).
Defined.

(** ** The payload stays within the schema *)








(** ** Create/Update as a whole *)

(** The stages of lines 183-226: where the run ended, what it had sent by
    then, and whether it had touched the resource data. *)
Lemma createOrUpdate_stages `{Remote} (name resourceGroup workspaceName : string)
  (s : State) (result : option error) (s' : State) :
  createOrUpdate name resourceGroup workspaceName s = Value (result, s') →
  (data s' = data s ∧ is_Some result
   ∧ calls s' = calls s ++ [WorkspaceGet resourceGroup workspaceName])
  ∨ ∃ workspace info future,
      bigDataPoolInfo (data s) workspace = Value info
      ∧ ((data s' = data s ∧ is_Some result
          ∧ (calls s' = calls s ++
               [WorkspaceGet resourceGroup workspaceName;
                BigDataPoolCreateOrUpdate resourceGroup workspaceName name info]
             ∨ calls s' = calls s ++
               [WorkspaceGet resourceGroup workspaceName;
                BigDataPoolCreateOrUpdate resourceGroup workspaceName name info;
                WaitForCompletionRef future]
             ∨ calls s' = calls s ++
               [WorkspaceGet resourceGroup workspaceName;
                BigDataPoolCreateOrUpdate resourceGroup workspaceName name info;
                WaitForCompletionRef future;
                BigDataPoolGet resourceGroup workspaceName name]))
         ∨ ∃ id w4,
             id ≠ ""
             ∧ resourceArmSynapseBigDataPoolRead
                 {| data := SetId id (data s); world := w4;
                    calls := calls s ++
                      [WorkspaceGet resourceGroup workspaceName;
                       BigDataPoolCreateOrUpdate resourceGroup workspaceName name info;
                       WaitForCompletionRef future;
                       BigDataPoolGet resourceGroup workspaceName name] |}
               = Value (result, s')).
Proof.
  unfold createOrUpdate. step.
  destruct (api_WorkspaceGet _ _ (world s)) as [[workspace [err|]] w1]; step.
  { intros [= <- <-]. left. simpl. eauto. }
  destruct (bigDataPoolInfo (data s) workspace) as [info|] eqn:Hinfo;
    [|discriminate]. step.
  destruct (api_BigDataPoolCreateOrUpdate _ _ _ info w1) as [[future [err|]] w2]; step.
  { intros [= <- <-]. right. exists workspace, info, future. split; [exact Hinfo|].
    left. simpl. rewrite <- !app_assoc. simpl. eauto 10. }
  destruct (api_WaitForCompletionRef future w2) as [[err|] w3]; step.
  { intros [= <- <-]. right. exists workspace, info, future. split; [exact Hinfo|].
    left. simpl. rewrite <- !app_assoc. simpl. eauto 10. }
  destruct (api_BigDataPoolGet _ _ _ w3) as [[resp [err|]] w4]; step.
  { intros [= <- <-]. right. exists workspace, info, future. split; [exact Hinfo|].
    left. simpl. rewrite <- !app_assoc. simpl. eauto 10. }
  destruct (ID resp) as [id|]; [destruct (bool_decide (id = "")) eqn:Hid|]; step.
  - intros [= <- <-]. right. exists workspace, info, future. split; [exact Hinfo|].
    left. simpl. rewrite <- !app_assoc. simpl. eauto 10.
  - intros Hread. right. exists workspace, info, future. split; [exact Hinfo|].
    right. exists id, w4. apply bool_decide_eq_false in Hid. split; [exact Hid|].
    rewrite <- !app_assoc in Hread. exact Hread.
  - intros [= <- <-]. right. exists workspace, info, future. split; [exact Hinfo|].
    left. simpl. rewrite <- !app_assoc. simpl. eauto 10.
Qed.

Lemma createOrUpdate_returns `{Remote} (name resourceGroup workspaceName : string)
  (s : State) :
  (∀ workspace, ∃ info, bigDataPoolInfo (data s) workspace = Value info) →
  ∃ (result : option error) (s' : State),
    createOrUpdate name resourceGroup workspaceName s = Value (result, s').
Proof.
  intros Hpayload. unfold createOrUpdate. step.
  destruct (api_WorkspaceGet _ _ (world s)) as [[workspace [err|]] w1]; step; [eauto|].
  destruct (Hpayload workspace) as [info ->]. step.
  destruct (api_BigDataPoolCreateOrUpdate _ _ _ info w1) as [[future [err|]] w2]; step;
    [eauto|].
  destruct (api_WaitForCompletionRef future w2) as [[err|] w3]; step; [eauto|].
  destruct (api_BigDataPoolGet _ _ _ w3) as [[resp [err|]] w4]; step; [eauto|].
  destruct (ID resp) as [id|]; [destruct (bool_decide (id = ""))|]; step; eauto.
  match goal with
  | |- context [resourceArmSynapseBigDataPoolRead ?s0] =>
      destruct (read_effects "" s0 no_key_not_read) as (r & s1 & Hrun & _)
  end.
  eauto.
Qed.

Lemma accepted_strings `{Helpers} (d : ResourceData) :
  accepted (fields d) = true →
  ∃ name raw, Get d "name" = VString name
              ∧ Get d "synapse_workspace_id" = VString raw.
Proof.
  intros Hacc. unfold accepted in Hacc. apply andb_prop in Hacc as [Hacc _].
  unfold bigDataPoolSchema in Hacc. cbn [forallb] in Hacc.
  apply andb_prop in Hacc as [Hname Hacc].
  apply andb_prop in Hacc as [Hraw _].
  destruct (Get_string d "name" _ eq_refl eq_refl eq_refl Hname) as [name ->].
  destruct (Get_string d "synapse_workspace_id" _ eq_refl eq_refl eq_refl Hraw)
    as [raw ->].
  eauto.
Qed.

(** X13: on a configuration that the schema accepts, Create/Update returns,
    with or without an error, exactly when the workspace identifier parses.
    The parse error of line 169 is dropped, so an identifier that does not
    parse leaves a nil pointer, and the run panics on its first use. *)
Theorem create_update_returns_iff_workspace_parses `{Remote}
  (d : ResourceData) (w : World) :
  accepted (fields d) = true →
  ∃ raw, Get d "synapse_workspace_id" = VString raw
         ∧ match parse_SynapseWorkspaceID raw with
           | inl _ =>
               ∃ result s',
                 resourceArmSynapseBigDataPoolCreateUpdate (start d w)
                 = Value (result, s')
           | inr _ =>
               resourceArmSynapseBigDataPoolCreateUpdate (start d w)
               = Panic NilPointerDereference
           end.
Proof.
  intros Hacc. destruct (accepted_strings d Hacc) as (name & raw & Hname & Hraw).
  exists raw. split; [exact Hraw|].
  unfold resourceArmSynapseBigDataPoolCreateUpdate. step.
  rewrite Hname. simpl. rewrite Hraw. simpl.
  destruct (parse_SynapseWorkspaceID raw) as [workspaceId | perr]; simpl;
    [|reflexivity].
  match goal with
  | |- context [checkExisting ?n ?rg ?ws ?s] =>
      destruct (checkExisting_effects n rg ws s) as (r0 & s0 & -> & Hdata & _)
  end.
  destruct r0 as [e|]; [eauto|].
  apply createOrUpdate_returns. intros workspace. rewrite Hdata. simpl.
  destruct (bigDataPoolInfo_accepted d workspace Hacc) as (info & _ & _ & Hinfo & _).
  eauto.
Qed.

Lemma create_update_returns_iff_workspace_parses_witness :
  resourceArmSynapseBigDataPoolCreateUpdate (H0 := demoRemote)
    (start {| Id := ""; IsNewResource := true;
              fields := <["synapse_workspace_id" := VString ""]> demoConfig |}
       (demoScript [demoNotFound]))
  = Panic NilPointerDereference.
Proof.
  destruct (create_update_returns_iff_workspace_parses (H0 := demoRemote)
              {| Id := ""; IsNewResource := true;
                 fields := <["synapse_workspace_id" := VString ""]> demoConfig |}
              (demoScript [demoNotFound]))
    as (raw & Hraw & Hrun).
  - vm_compute. reflexivity.
  - vm_compute in Hraw. injection Hraw as <-. exact Hrun.
Defined.

(** Read adds no request, or one Get. *)
Lemma read_kinds `{Remote} (s : State) (result : option error) (s' : State) :
  resourceArmSynapseBigDataPoolRead s = Value (result, s') →
  kind <$> calls s' = kind <$> calls s
  ∨ kind <$> calls s' = (kind <$> calls s) ++ [KGet].
Proof.
  intros Hrun.
  destruct (read_effects "" s no_key_not_read) as (r & s1 & Hrun' & Hcalls & _).
  rewrite Hrun in Hrun'. injection Hrun' as <- <-.
  destruct Hcalls as [-> | (a & b & c & ->)]; [left; reflexivity|].
  right. rewrite fmap_app. reflexivity.
Qed.

(** X14: whatever the service answers, the requests of a Create/Update that
    returns are an initial part of one fixed sequence: the Get of the
    existence check, for a new resource only; the workspace lookup; the
    write; the wait; the Get for the identifier; the Get of the closing
    Read.  So nothing is written before the workspace was looked up, no
    wait precedes the write, at most one write is sent, and no delete. *)
Theorem create_update_request_order `{Remote} (d : ResourceData) (w : World)
  (result : option error) (s' : State) :
  resourceArmSynapseBigDataPoolCreateUpdate (start d w) = Value (result, s') →
  kind <$> calls s' `prefix_of`
    (if IsNewResource d then [KGet] else []) ++
    [KWorkspaceGet; KWrite; KWait; KGet; KGet].
Proof.
  unfold resourceArmSynapseBigDataPoolCreateUpdate. step.
  destruct (assertString (Get d "name")) as [name|]; [|discriminate]. simpl.
  destruct (assertString (Get d "synapse_workspace_id")) as [raw|]; [|discriminate].
  simpl.
  destruct (parse_SynapseWorkspaceID raw) as [workspaceId|]; [|discriminate]. simpl.
  set (resourceGroup := SynapseWorkspaceId.ResourceGroup workspaceId).
  set (workspaceName := SynapseWorkspaceId.Name workspaceId).
  assert (Hcheck : ∃ r0 s0,
            checkExisting name resourceGroup workspaceName
              {| data := d; world := w; calls := [] |} = Value (r0, s0)
            ∧ data s0 = d
            ∧ kind <$> calls s0 = (if IsNewResource d then [KGet] else [])).
  { unfold checkExisting. step. destruct (IsNewResource d); step; [|eauto 10].
    destruct (api_BigDataPoolGet _ _ _ w) as [[existing err] w1]; step.
    destruct err as [err|]; [destruct (ResponseWasNotFound (Response existing))|];
      simpl;
      try (destruct (ID existing) as [id|]; [destruct (bool_decide (id = ""))|]);
      eexists _, _; (split; [reflexivity|]); simpl; auto. }
  destruct Hcheck as (r0 & s0 & -> & Hdata & Hkinds).
  destruct r0 as [e|].
  { intros [= <- <-]. rewrite Hkinds. apply prefix_app_r. reflexivity. }
  intros Hrun. apply createOrUpdate_stages in Hrun.
  destruct Hrun as [(_ & _ & ->) | (workspace & info & future & _ & Hrun)].
  { rewrite fmap_app, Hkinds. apply prefix_app, prefix_cons, prefix_nil. }
  destruct Hrun as [(_ & _ & [-> | [-> | ->]]) | (id & w4 & _ & Hread)].
  - rewrite fmap_app, Hkinds. apply prefix_app. simpl.
    do 2 apply prefix_cons. apply prefix_nil.
  - rewrite fmap_app, Hkinds. apply prefix_app. simpl.
    do 3 apply prefix_cons. apply prefix_nil.
  - rewrite fmap_app, Hkinds. apply prefix_app. simpl.
    do 4 apply prefix_cons. apply prefix_nil.
  - apply read_kinds in Hread. simpl in Hread.
    destruct Hread as [-> | ->]; rewrite fmap_app, Hkinds; simpl.
    + apply prefix_app. do 4 apply prefix_cons. apply prefix_nil.
    + rewrite <- app_assoc. apply prefix_app. simpl. reflexivity.
Qed.

Lemma create_update_request_order_witness :
  ∃ result s',
    resourceArmSynapseBigDataPoolCreateUpdate (H0 := demoRemote)
      (start (demoData "" true)
         (demoScript [demoNotFound; demoFound "pool1" (Some demoProperties);
                      demoFound "pool1" (Some demoProperties)]))
    = Value (result, s')
    ∧ kind <$> calls s' `prefix_of` [KGet; KWorkspaceGet; KWrite; KWait; KGet; KGet].
Proof.
  evaluate_as Hrun
    (resourceArmSynapseBigDataPoolCreateUpdate (H0 := demoRemote)
       (start (demoData "" true)
          (demoScript [demoNotFound; demoFound "pool1" (Some demoProperties);
                       demoFound "pool1" (Some demoProperties)]))).
  eexists _, _. split; [exact Hrun|].
  exact (create_update_request_order (H0 := demoRemote) _ _ _ _ Hrun).
Defined.

(** X15: a Create/Update that returns nil, or that returns with the
    resource data changed, has sent the workspace lookup, the write, the
    wait and the Get for the identifier, in this order and next to each
    other.  Every run that ends before that returns an error and leaves the
    resource data as they were. *)
Theorem create_update_success_or_untouched `{Remote} (d : ResourceData) (w : World)
  (result : option error) (s' : State) :
  resourceArmSynapseBigDataPoolCreateUpdate (start d w) = Value (result, s') →
  (is_Some result ∧ data s' = d)
  ∨ ∃ resourceGroup workspaceName name info future before after,
      calls s' = before ++
        [WorkspaceGet resourceGroup workspaceName;
         BigDataPoolCreateOrUpdate resourceGroup workspaceName name info;
         WaitForCompletionRef future;
         BigDataPoolGet resourceGroup workspaceName name] ++ after.
Proof.
  unfold resourceArmSynapseBigDataPoolCreateUpdate. step.
  destruct (assertString (Get d "name")) as [name|]; [|discriminate]. simpl.
  destruct (assertString (Get d "synapse_workspace_id")) as [raw|]; [|discriminate].
  simpl.
  destruct (parse_SynapseWorkspaceID raw) as [workspaceId|]; [|discriminate]. simpl.
  match goal with
  | |- context [checkExisting ?n ?rg ?ws ?s] =>
      destruct (checkExisting_effects n rg ws s) as (r0 & s0 & -> & Hdata & _)
  end.
  simpl in Hdata. destruct r0 as [e|].
  { intros [= <- <-]. left. eauto. }
  intros Hrun. apply createOrUpdate_stages in Hrun. rewrite Hdata in Hrun.
  destruct Hrun as [(? & ? & _) | (workspace & info & future & _ & Hrun)];
    [left; eauto|].
  destruct Hrun as [(? & ? & [-> | [-> | ->]]) | (id & w4 & _ & Hread)];
    try (left; split; assumption).
  right.
  match type of Hread with
  | resourceArmSynapseBigDataPoolRead ?s1 = _ =>
      destruct (read_effects "" s1 no_key_not_read) as (r & s2 & Hrun' & Hcalls & _)
  end.
  rewrite Hread in Hrun'. injection Hrun' as <- <-. simpl in Hcalls.
  destruct Hcalls as [-> | (a & b & c & ->)].
  - eexists _, _, _, _, _, (calls s0), []. reflexivity.
  - eexists _, _, _, _, _, (calls s0), [_]. rewrite <- app_assoc. reflexivity.
Qed.

Lemma create_update_success_or_untouched_witness :
  ∃ result s',
    resourceArmSynapseBigDataPoolCreateUpdate (H0 := demoRemote)
      (start (demoData "" true)
         {| getReplies := [demoNotFound];
            workspaceReply := (Workspace.mk (Some "westeurope"), None);
            createOrUpdateReply := Some "quota exceeded"; deleteReply := None;
            waitReply := None |})
    = Value (result, s')
    ∧ is_Some result ∧ data s' = demoData "" true.
Proof.
  evaluate_as Hrun
    (resourceArmSynapseBigDataPoolCreateUpdate (H0 := demoRemote)
       (start (demoData "" true)
          {| getReplies := [demoNotFound];
             workspaceReply := (Workspace.mk (Some "westeurope"), None);
             createOrUpdateReply := Some "quota exceeded"; deleteReply := None;
             waitReply := None |})).
  eexists _, _. split; [exact Hrun|].
  destruct (create_update_success_or_untouched (H0 := demoRemote) _ _ _ _ Hrun)
    as [Hfailed | (rg & ws & name & info & future & before & after & Hcalls)];
    [exact Hfailed|].
  exfalso. cbn [calls] in Hcalls.
  apply (f_equal length) in Hcalls. rewrite !length_app in Hcalls.
  simpl in Hcalls. lia.
Defined.
